(** * magic-image-editor: the image-generation HTTP services

    A shallow embedding of the three Python modules of the server package:

    - [server/local_pipelines.py]: four placeholder generation functions;
    - [server/main.py]: the multipart upload router built on them;
    - [server/simple_backend.py]: the service backed by a pretrained
      diffusion pipeline, with its startup hook and four routes.

    Python [bytes] are [list Byte.byte], [str] is [string], [int] is [Z],
    [float] is the IEEE binary64 type [float].  Dictionaries produced by the
    framework (decoded JSON objects, multipart fields, query strings) are
    [gmap string _].  The module-level variable [pipe] of the backend is a
    field of an explicit state that every handler receives and returns. *)

From Stdlib Require Import Floats.
From stdpp Require Import gmap strings list.

Local Open Scope Z_scope.

Abbreviation bytes := (list Byte.byte).

(** ** HTTP responses, as the framework hands them to the client *)

(** One entry of the list returned by [get_models]. *)
Record ModelInfo := { title : string; model_name : string }.

(** [HealthResponse(BaseModel)] of [simple_backend.py]. *)
Record HealthResponse := { status : string; models : list string }.

(** The payload of a response.  A streamed body is the list of chunks the
    content iterator yields; the other payloads are JSON documents. *)
Inductive Content :=
  | Stream (chunks : list bytes) (media_type : string)
  | HealthJson (h : HealthResponse)
  | ModelsJson (l : list ModelInfo)
  | DetailJson (detail : string)
  | ValidationErrorsJson.

Record HttpResponse := { status_code : Z; content : Content }.

(** The bytes a client receives from a streamed body. *)
Definition stream_body (chunks : list bytes) : bytes := concat chunks.

(** The framework answers a request whose parameters or body do not validate
    with 422 Unprocessable Entity, before any handler code runs. *)
Definition validation_error : HttpResponse :=
  {| status_code := 422; content := ValidationErrorsJson |}.

Definition is_client_error (r : HttpResponse) : Prop :=
  400 <= status_code r < 500.

(** ** [server/local_pipelines.py] *)

Module LocalPipelines.

Definition turbo_generate_bg (image_bytes : bytes) (prompt : string) : bytes :=
  image_bytes.

Definition turbo_inpaint (image_bytes mask_bytes : bytes) (prompt : string) : bytes :=
  image_bytes.

Definition pix2pix_edit (image_bytes mask_bytes : bytes) (prompt : string) : bytes :=
  image_bytes.

Definition gligen_expand (image_bytes : bytes) (prompt : string) : bytes :=
  image_bytes.

End LocalPipelines.

(** ** [server/main.py] *)

Module Main.
Import LocalPipelines.

(** What a handler returns: [StreamingResponse(content, media_type=...)]. *)
Record StreamingResponse :=
  { body_iterator : list bytes; stream_media_type : string }.

(** A call of one of the generation functions, with its arguments.  The
    handlers are run in a writer that records these calls, so that "the
    generation function was not called" can be said of a request. *)
Inductive Call :=
  | CallTurboGenerateBg (image : bytes) (prompt : string)
  | CallTurboInpaint (image mask : bytes) (prompt : string)
  | CallPix2pixEdit (image mask : bytes) (prompt : string)
  | CallGligenExpand (image : bytes) (prompt : string).

Definition Traced (A : Type) : Type := A * list Call.

Definition ret {A} (a : A) : Traced A := (a, []).

Definition bind {A B} (m : Traced A) (k : A -> Traced B) : Traced B :=
  let (b, t) := k (fst m) in (b, snd m ++ t).

Definition calling {A} (c : Call) (result : A) : Traced A := (result, [c]).

Notation "'let!' x ':=' m 'in' k" := (bind m (fun x => k))
  (at level 10, x name, m at level 100, k at level 200).

(** *** The four handlers, on their already validated parameters.
    [await image.read()] is the whole content of the upload. *)

Definition generate_bg (image : bytes) (prompt : string) : Traced StreamingResponse :=
  let! png_bytes := calling (CallTurboGenerateBg image prompt)
                           (turbo_generate_bg image prompt) in
  ret {| body_iterator := [png_bytes]; stream_media_type := "image/png" |}.

Definition inpaint (image mask : bytes) (prompt : string) : Traced StreamingResponse :=
  let! png_bytes := calling (CallTurboInpaint image mask prompt)
                           (turbo_inpaint image mask prompt) in
  ret {| body_iterator := [png_bytes]; stream_media_type := "image/png" |}.

Definition edit (image mask : bytes) (prompt : string) : Traced StreamingResponse :=
  let! png_bytes := calling (CallPix2pixEdit image mask prompt)
                           (pix2pix_edit image mask prompt) in
  ret {| body_iterator := [png_bytes]; stream_media_type := "image/png" |}.

Definition expand (image : bytes) (prompt : string) : Traced StreamingResponse :=
  let! png_bytes := calling (CallGligenExpand image prompt)
                           (gligen_expand image prompt) in
  ret {| body_iterator := [png_bytes]; stream_media_type := "image/png" |}.

(** *** Parameter binding

    A request carries the decoded multipart fields and the query string.
    A multipart field is either a text value or an uploaded file. *)

Inductive Part :=
  | TextPart (value : string)
  | FilePart (file_content : bytes).

Record Request :=
  { form : gmap string Part; query : gmap string string }.

(** A parameter annotated [UploadFile] without default: a required file. *)
Definition upload_file (name : string) (r : Request) : option bytes :=
  match form r !! name with
  | Some (FilePart b) => Some b
  | _ => None
  end.

(** A parameter [name: str = Form(default)]: an optional text field. *)
Definition form_str (name default : string) (r : Request) : option string :=
  match form r !! name with
  | None => Some default
  | Some (TextPart s) => Some s
  | Some (FilePart _) => None
  end.

(** A parameter [name: str] without default: a required query parameter. *)
Definition query_str (name : string) (r : Request) : option string :=
  query r !! name.

Definition respond (m : Traced StreamingResponse) : Traced HttpResponse :=
  let! s := m in
  ret {| status_code := 200;
         content := Stream (body_iterator s) (stream_media_type s) |}.

Definition reject : Traced HttpResponse := ret validation_error.

(** *** The four routes *)

Definition post_generate_bg (r : Request) : Traced HttpResponse :=
  match upload_file "image" r, form_str "prompt" "" r with
  | Some image, Some prompt => respond (generate_bg image prompt)
  | _, _ => reject
  end.

Definition post_inpaint (r : Request) : Traced HttpResponse :=
  match upload_file "image" r, upload_file "mask" r, form_str "prompt" "" r with
  | Some image, Some mask, Some prompt => respond (inpaint image mask prompt)
  | _, _, _ => reject
  end.

Definition post_edit (r : Request) : Traced HttpResponse :=
  match upload_file "image" r, upload_file "mask" r, query_str "prompt" r with
  | Some image, Some mask, Some prompt => respond (edit image mask prompt)
  | _, _, _ => reject
  end.

Definition post_expand (r : Request) : Traced HttpResponse :=
  match upload_file "image" r, query_str "prompt" r with
  | Some image, Some prompt => respond (expand image prompt)
  | _, _ => reject
  end.

(** A request that supplies the file uploads and nothing else. *)
Definition uploads_only (image : bytes) (mask : option bytes) : Request :=
  {| form := match mask with
             | Some m => <["mask" := FilePart m]> {["image" := FilePart image]}
             | None => {["image" := FilePart image]}
             end;
     query := ∅ |}.

(** A well-formed request with its prompt where each route expects it. *)
Definition full_request (image : bytes) (mask : option bytes) (prompt : string)
  : Request :=
  {| form := <["prompt" := TextPart prompt]> (form (uploads_only image mask));
     query := {["prompt" := prompt]} |}.

End Main.

(** ** [server/simple_backend.py] *)

Module SimpleBackend.

(** *** The foreign libraries

    An exception raised by foreign code: whether it is an instance of
    [Exception] (what [except Exception] catches; [KeyboardInterrupt],
    [SystemExit] and the like are not) and what [str(e)] gives. *)
Record PyExc := { is_Exception : bool; exc_str : string }.

Inductive Dtype := float16 | float32.

(** The keyword arguments of a pipeline invocation. *)
Record Kwargs :=
  { kw_prompt : string;
    kw_width : Z;
    kw_height : Z;
    kw_num_inference_steps : Z;
    kw_guidance_scale : float }.

(** The decoded JSON body of a request, as [json.loads] builds it. *)
#[warnings="-register-all"] Inductive json : Type :=
  | JNull
  | JBool (b : bool)
  | JInt (z : Z)
  | JFloat (f : float)
  | JStr (s : string)
  | JList (l : list json)
  | JDict (d : gmap string json).

(** torch, diffusers and PIL.  Their calls read and change a world (the
    file system, the device, the random generator) that is threaded
    through; each may raise instead of returning. *)
Class Foreign :=
  { World : Type;
    Pipeline : Type;
    Image : Type;
    (** [torch.cuda.is_available()] *)
    cuda_is_available : World -> bool;
    (** [StableDiffusionPipeline.from_pretrained(name, torch_dtype=..., use_auth_token=...)] *)
    from_pretrained : string -> Dtype -> bool -> World -> (PyExc + Pipeline) * World;
    (** [pipe.to(device)] *)
    pipeline_to : Pipeline -> string -> World -> (PyExc + Pipeline) * World;
    (** [pipe(prompt=..., ...)], giving the [.images] of its output *)
    pipeline_call : Pipeline -> Kwargs -> World -> (PyExc + list Image) * World;
    (** [image.size] *)
    image_size : Image -> Z * Z;
    (** [image.save(buffer, format=...)], giving the bytes written *)
    image_save : Image -> string -> World -> (PyExc + bytes) * World;
    (** Reading bytes back as a PNG file: the size of the picture, if the
        bytes are a well-formed PNG.  No handler calls it; it is what
        "a well-formed PNG of size w x h" refers to. *)
    png_open : bytes -> option (Z * Z) }.

(** The field validators of pydantic: what a JSON value is coerced to for
    a field annotated [str], [int] or [float], if anything. *)
Class Validators :=
  { coerce_str : json -> option string;
    coerce_int : json -> option Z;
    coerce_float : json -> option float }.

(** *** Data model *)

Record GenerateRequest :=
  { prompt : string;
    width : Z;
    height : Z;
    num_inference_steps : Z;
    guidance_scale : float }.

Record StreamingResponse :=
  { body_iterator : list bytes; stream_media_type : string }.

Inductive Level := INFO | ERROR.

(** What a handler raises: an [HTTPException] of its own, or a foreign
    exception that no [except] clause caught. *)
Inductive Exc :=
  | HTTPException (status_code : Z) (detail : string)
  | Uncaught (e : PyExc).

Section WithForeign.
Context `{Foreign}.

(** The process state: the global [pipe], the world of the foreign
    libraries, the records written to the logger, and the trace of the
    pipeline invocations made so far. *)
Record State :=
  { pipe : option Pipeline;
    world : World;
    log : list (Level * string);
    invocations : list Kwargs }.

(** Computations over the state that raise an [E] or return an [A]. *)
Definition M (E A : Type) : Type := State -> (E + A) * State.

Definition ret {E A} (a : A) : M E A := fun s => (inr a, s).

Definition raise {E A} (e : E) : M E A := fun s => (inl e, s).

Definition bind {E A B} (m : M E A) (k : A -> M E B) : M E B :=
  fun s =>
    match m s with
    | (inr a, s') => k a s'
    | (inl e, s') => (inl e, s')
    end.

Notation "'let!' x ':=' m 'in' k" := (bind m (fun x => k))
  (at level 10, x name, m at level 100, k at level 200).

(** [try: body / except Exception as e: handler e] *)
Definition try_except {A} (body : M PyExc A) (handler : PyExc -> M Exc A)
  : M Exc A :=
  fun s =>
    match body s with
    | (inr a, s') => (inr a, s')
    | (inl e, s') =>
        if is_Exception e then handler e s' else (inl (Uncaught e), s')
    end.

Definition read_pipe {E} : M E (option Pipeline) := fun s => (inr (pipe s), s).

Definition write_pipe {E} (p : option Pipeline) : M E unit :=
  fun s => (inr tt, {| pipe := p; world := world s; log := log s;
                        invocations := invocations s |}).

Definition logger (l : Level) (msg : string) {E} : M E unit :=
  fun s => (inr tt, {| pipe := pipe s; world := world s;
                        log := log s ++ [(l, msg)];
                        invocations := invocations s |}).

(** A foreign call: it runs on the world and leaves the rest alone. *)
Definition foreign {A} (f : World -> (PyExc + A) * World) : M PyExc A :=
  fun s =>
    let (r, w) := f (world s) in
    (r, {| pipe := pipe s; world := w; log := log s;
           invocations := invocations s |}).

Definition cuda : M PyExc bool :=
  fun s => (inr (cuda_is_available (world s)), s).

(** [p(prompt=..., ...)]: the invocation is appended to the trace. *)
Definition invoke (p : Pipeline) (kw : Kwargs) : M PyExc (list Image) :=
  fun s =>
    let (r, w) := pipeline_call p kw (world s) in
    (r, {| pipe := pipe s; world := w; log := log s;
           invocations := invocations s ++ [kw] |}).

(** [images[0]] *)
Definition first_image (images : list Image) : M PyExc Image :=
  match images with
  | image :: _ => ret image
  | [] => raise {| is_Exception := true; exc_str := "list index out of range" |}
  end.

(** Iterating an [io.BytesIO] yields its lines: each chunk runs up to
    and including the next newline byte, the last one to the end. *)
Fixpoint bytesio_iter (b : bytes) : list bytes :=
  match b with
  | [] => []
  | Byte.x0a :: rest => [Byte.x0a] :: bytesio_iter rest
  | x :: rest =>
      match bytesio_iter rest with
      | [] => [[x]]
      | line :: lines => (x :: line) :: lines
      end
  end.

(** *** The startup hook *)

Definition startup_event : M Exc unit :=
  try_except
    (let! _ := logger INFO "Loading Stable Diffusion pipeline..." in
     let! gpu := cuda in
     let! p := foreign (from_pretrained "runwayml/stable-diffusion-v1-5"
                          (if gpu then float16 else float32) false) in
     let! _ := write_pipe (Some p) in
     let! gpu := cuda in
     let device := if gpu then "cuda" else "cpu" in
     let! p := foreign (pipeline_to p device) in
     let! _ := write_pipe (Some p) in
     logger INFO ("Pipeline loaded successfully on " ++ device))
    (fun e =>
       let! _ := logger ERROR ("Failed to load pipeline: " ++ exc_str e) in
       write_pipe None).

(** *** The handlers *)

Definition health_check : M Exc HealthResponse :=
  let! p := read_pipe in
  ret {| status := if p is Some _ then "healthy" else "unhealthy";
         models := if p is Some _ then ["stable-diffusion-v1-5"] else [] |}.

Definition get_models : M Exc (list ModelInfo) :=
  ret [{| title := "stable-diffusion-v1-5";
          model_name := "stable-diffusion-v1-5" |}].

Definition kwargs_of (request : GenerateRequest) : Kwargs :=
  {| kw_prompt := prompt request;
     kw_width := width request;
     kw_height := height request;
     kw_num_inference_steps := num_inference_steps request;
     kw_guidance_scale := guidance_scale request |}.

Definition generate_image (request : GenerateRequest) : M Exc StreamingResponse :=
  let! p := read_pipe in
  match p with
  | None => raise (HTTPException 503 "Pipeline not loaded")
  | Some p =>
      try_except
        (let! _ := logger INFO ("Generating image with prompt: " ++ prompt request) in
         let! images := invoke p (kwargs_of request) in
         let! image := first_image images in
         let! img_byte_arr := foreign (image_save image "PNG") in
         ret {| body_iterator := bytesio_iter img_byte_arr;
                stream_media_type := "image/png" |})
        (fun e =>
           let! _ := logger ERROR ("Error generating image: " ++ exc_str e) in
           raise (HTTPException 500 (exc_str e)))
  end.

Definition generate_background (request : GenerateRequest) : M Exc StreamingResponse :=
  generate_image request.

(** *** Request validation

    The body of the two POST routes is bound to a [GenerateRequest]: it must
    decode to a JSON object, a field that is present must validate, and a
    field that is absent takes its default, which [prompt] does not have. *)

Context `{Validators}.

Definition field {A} (coerce : json -> option A) (name : string)
    (default : option A) (d : gmap string json) : option A :=
  match d !! name with
  | Some j => coerce j
  | None => default
  end.

Definition validate (body : option json) : option GenerateRequest :=
  match body with
  | Some (JDict d) =>
      p ← field coerce_str "prompt" None d;
      w ← field coerce_int "width" (Some 512) d;
      h ← field coerce_int "height" (Some 512) d;
      n ← field coerce_int "num_inference_steps" (Some 20) d;
      g ← field coerce_float "guidance_scale" (Some 7.5%float) d;
      Some {| prompt := p; width := w; height := h;
              num_inference_steps := n; guidance_scale := g |}
  | _ => None
  end.

(** *** The routes

    [body] is [None] when the bytes received are not JSON. *)

Inductive Request :=
  | GetHealth
  | GetSdModels
  | PostTxt2img (body : option json)
  | PostGenerateBg (body : option json).

(** A request is answered, unless an exception that is not an [Exception]
    leaves the application. *)
Definition Served : Type := State -> (PyExc + HttpResponse) * State.

Definition respond {A} (render : A -> Content) (m : M Exc A) : Served :=
  fun s =>
    match m s with
    | (inr a, s') => (inr {| status_code := 200; content := render a |}, s')
    | (inl (HTTPException code detail), s') =>
        (inr {| status_code := code; content := DetailJson detail |}, s')
    | (inl (Uncaught e), s') => (inl e, s')
    end.

Definition render_stream (r : StreamingResponse) : Content :=
  Stream (body_iterator r) (stream_media_type r).

Definition with_body (handler : GenerateRequest -> M Exc StreamingResponse)
    (body : option json) : Served :=
  match validate body with
  | Some request => respond render_stream (handler request)
  | None => fun s => (inr validation_error, s)
  end.

Definition serve (r : Request) : Served :=
  match r with
  | GetHealth => respond HealthJson health_check
  | GetSdModels => respond ModelsJson get_models
  | PostTxt2img body => with_body generate_image body
  | PostGenerateBg body => with_body generate_background body
  end.

(** The state after a sequence of requests. *)
Fixpoint serve_all (rs : list Request) (s : State) : State :=
  match rs with
  | [] => s
  | r :: rs => serve_all rs (snd (serve r s))
  end.

(** The state of the freshly imported module: [pipe = None]. *)
Definition boot (w : World) : State :=
  {| pipe := None; world := w; log := []; invocations := [] |}.

(** *** What is expected of the foreign libraries *)

(** The pipeline returns pictures of the size it was asked for. *)
Definition honours_size (p : Pipeline) : Prop :=
  forall kw w images w',
    pipeline_call p kw w = (inr images, w') ->
    forall image, image ∈ images -> image_size image = (kw_width kw, kw_height kw).

(** What [save] writes as PNG reads back as a picture of the same size. *)
Definition png_codec_sound : Prop :=
  forall image w data w',
    image_save image "PNG" w = (inr data, w') ->
    png_open data = Some (image_size image).

End WithForeign.

Arguments State {_}.
Arguments M {_} E A.
Arguments Served {_}.

End SimpleBackend.

(** ** A small instance of the foreign libraries

    A stand-in for torch, diffusers and PIL on which the services run by
    computation.  Pictures are reduced to their size; the PNG data kept is
    the signature and the start of the header chunk, which carries the size. *)

Module Toy.
Import SimpleBackend.

Record world := { weights_cached : bool; gpu : bool; draws : nat }.

Record pipeline := { device : string }.

Definition ValueError (msg : string) : PyExc :=
  {| is_Exception := true; exc_str := msg |}.

Definition OSError (msg : string) : PyExc :=
  {| is_Exception := true; exc_str := msg |}.

Definition KeyboardInterrupt : PyExc :=
  {| is_Exception := false; exc_str := "" |}.

Definition byte_of (z : Z) : Byte.byte :=
  default Byte.x00 (Byte.of_N (Z.to_N z)).

Definition be32 (z : Z) : bytes :=
  [byte_of (z / 16777216); byte_of (z / 65536 mod 256);
   byte_of (z / 256 mod 256); byte_of (z mod 256)].

Definition of_be32 (a b c d : Byte.byte) : Z :=
  ((Z.of_N (Byte.to_N a) * 256 + Z.of_N (Byte.to_N b)) * 256
   + Z.of_N (Byte.to_N c)) * 256 + Z.of_N (Byte.to_N d).

Definition png_signature : bytes :=
  [Byte.x89; Byte.x50; Byte.x4e; Byte.x47; Byte.x0d; Byte.x0a; Byte.x1a; Byte.x0a].

Definition ihdr_tag : bytes :=
  [Byte.x00; Byte.x00; Byte.x00; Byte.x0d; Byte.x49; Byte.x48; Byte.x44; Byte.x52].

Definition encode (size : Z * Z) : bytes :=
  png_signature ++ ihdr_tag ++ be32 size.1 ++ be32 size.2.

Definition in_range (z : Z) : bool := (0 <=? z) && (z <? 4294967296).

Definition save (size : Z * Z) (format : string) (w : world)
  : (PyExc + bytes) * world :=
  if in_range size.1 && in_range size.2
  then (inr (encode size), w)
  else (inl (ValueError "cannot write picture"), w).

Definition open (data : bytes) : option (Z * Z) :=
  match data with
  | Byte.x89 :: Byte.x50 :: Byte.x4e :: Byte.x47
    :: Byte.x0d :: Byte.x0a :: Byte.x1a :: Byte.x0a
    :: Byte.x00 :: Byte.x00 :: Byte.x00 :: Byte.x0d
    :: Byte.x49 :: Byte.x48 :: Byte.x44 :: Byte.x52
    :: w1 :: w2 :: w3 :: w4 :: h1 :: h2 :: h3 :: h4 :: _ =>
      Some (of_be32 w1 w2 w3 w4, of_be32 h1 h2 h3 h4)
  | _ => None
  end.

Definition load (name : string) (dtype : Dtype) (use_auth_token : bool) (w : world)
  : (PyExc + pipeline) * world :=
  if weights_cached w
  then (inr {| device := "cpu" |}, w)
  else (inl (OSError "cannot load the model"), w).

Definition move (p : pipeline) (device : string) (w : world)
  : (PyExc + pipeline) * world :=
  (inr {| device := device |}, w).

(** One picture of the requested size per call; sizes that are not
    multiples of 8 are refused. *)
Definition sample (p : pipeline) (kw : Kwargs) (w : world)
  : (PyExc + list (Z * Z)) * world :=
  if (kw_width kw mod 8 =? 0) && (kw_height kw mod 8 =? 0)
  then (inr [(kw_width kw, kw_height kw)],
        {| weights_cached := weights_cached w; gpu := gpu w; draws := S (draws w) |})
  else (inl (ValueError "height and width have to be divisible by 8"), w).

#[export] Instance libraries : Foreign :=
  {| World := world;
     Pipeline := pipeline;
     Image := Z * Z;
     cuda_is_available := gpu;
     from_pretrained := load;
     pipeline_to := move;
     pipeline_call := sample;
     image_size := fun size => size;
     image_save := save;
     png_open := open |}.

(** Validators that accept a JSON value of the field's own type only. *)
#[export] Instance strict : Validators :=
  {| coerce_str := fun j => if j is JStr s then Some s else None;
     coerce_int := fun j => if j is JInt z then Some z else None;
     coerce_float := fun j => if j is JFloat f then Some f else None |}.

Definition ready : world := {| weights_cached := true; gpu := false; draws := 0 |}.

Definition offline : world := {| weights_cached := false; gpu := false; draws := 0 |}.

(** The state once the startup hook has run in the world [w]. *)
Definition started (w : world) : State := snd (startup_event (boot w)).

Definition prompt_only : json := JDict {[ "prompt" := JStr "a cat" ]}.

Definition prompt_and_steps : json :=
  JDict (<[ "num_inference_steps" := JInt 50 ]> {[ "prompt" := JStr "a cat" ]}).

End Toy.

(** ** The small instance, interrupted

    The same stand-in, with a world that also says at which foreign call,
    if any, the process receives a [KeyboardInterrupt]. *)

Module Interrupted.
Import SimpleBackend.

Inductive stage := AtLoad | AtMove | AtCall | AtSave | Never.

Definition stage_eqb (a b : stage) : bool :=
  match a, b with
  | AtLoad, AtLoad | AtMove, AtMove | AtCall, AtCall | AtSave, AtSave
  | Never, Never => true
  | _, _ => false
  end.

Definition world : Type := stage * Toy.world.

(** Runs the call [f] of the small instance unless the interrupt is due. *)
Definition unless {A} (at_stage : stage) (f : Toy.world -> (PyExc + A) * Toy.world)
    (w : world) : (PyExc + A) * world :=
  if stage_eqb w.1 at_stage
  then (inl Toy.KeyboardInterrupt, w)
  else let (r, w') := f w.2 in (r, (w.1, w')).

#[export] Instance libraries : Foreign :=
  {| World := world;
     Pipeline := Toy.pipeline;
     Image := Z * Z;
     cuda_is_available := fun w => Toy.gpu w.2;
     from_pretrained := fun name dtype token => unless AtLoad (Toy.load name dtype token);
     pipeline_to := fun p device => unless AtMove (Toy.move p device);
     pipeline_call := fun p kw => unless AtCall (Toy.sample p kw);
     image_size := fun size => size;
     image_save := fun image format => unless AtSave (Toy.save image format);
     png_open := Toy.open |}.

#[export] Instance strict : Validators := Toy.strict.

End Interrupted.

(** * Properties *)

(** The answer of a mock route that ran: 200, one chunk, [image/png]. *)
Definition png_stream (image : bytes) : HttpResponse :=
  {| status_code := 200; content := Stream [image] "image/png" |}.

(** ** Sequences of requests to the pipeline-backed service *)

Section Traffic.
Import SimpleBackend.
Context `{Foreign} `{Validators}.

(** The keyword arguments a request asks the pipeline to run with: those of
    its body, for a POST whose body binds to a [GenerateRequest]. *)
Definition asked (r : Request) : option Kwargs :=
  match r with
  | PostTxt2img body | PostGenerateBg body => kwargs_of <$> validate body
  | GetHealth | GetSdModels => None
  end.

(** The two foreign calls of the startup hook, as it makes them: the load
    of the model in half precision when a GPU is available and in single
    precision otherwise, and the device the pipeline is then moved to. *)
Definition load_model (w : World) : (PyExc + Pipeline) * World :=
  from_pretrained "runwayml/stable-diffusion-v1-5"
    (if cuda_is_available w then float16 else float32) false w.

Definition device_of (w : World) : string :=
  if cuda_is_available w then "cuda" else "cpu".

(** The outcomes of a sequence of requests, in the order they are served. *)
Fixpoint answers (rs : list Request) (s : State) : list (PyExc + HttpResponse) :=
  match rs with
  | [] => []
  | r :: rs => (serve r s).1 :: answers rs (serve r s).2
  end.

End Traffic.

(** ** The mock router *)

Section MockRouter.
Import LocalPipelines.

Lemma stream_body_single (image : bytes) : stream_body [image] = image.
Proof. unfold stream_body. simpl. apply app_nil_r. Qed.

Lemma post_generate_bg_bound (r : Main.Request) (image : bytes) (prompt : string) :
  Main.upload_file "image" r = Some image ->
  Main.form_str "prompt" "" r = Some prompt ->
  Main.post_generate_bg r = (png_stream image, [Main.CallTurboGenerateBg image prompt]).
Proof. intros Hi Hp. unfold Main.post_generate_bg. rewrite Hi, Hp. reflexivity. Qed.

Lemma post_inpaint_bound (r : Main.Request) (image mask : bytes) (prompt : string) :
  Main.upload_file "image" r = Some image ->
  Main.upload_file "mask" r = Some mask ->
  Main.form_str "prompt" "" r = Some prompt ->
  Main.post_inpaint r = (png_stream image, [Main.CallTurboInpaint image mask prompt]).
Proof. intros Hi Hm Hp. unfold Main.post_inpaint. rewrite Hi, Hm, Hp. reflexivity. Qed.

Lemma post_edit_bound (r : Main.Request) (image mask : bytes) (prompt : string) :
  Main.upload_file "image" r = Some image ->
  Main.upload_file "mask" r = Some mask ->
  Main.query_str "prompt" r = Some prompt ->
  Main.post_edit r = (png_stream image, [Main.CallPix2pixEdit image mask prompt]).
Proof. intros Hi Hm Hp. unfold Main.post_edit. rewrite Hi, Hm, Hp. reflexivity. Qed.

Lemma post_expand_bound (r : Main.Request) (image : bytes) (prompt : string) :
  Main.upload_file "image" r = Some image ->
  Main.query_str "prompt" r = Some prompt ->
  Main.post_expand r = (png_stream image, [Main.CallGligenExpand image prompt]).
Proof. intros Hi Hp. unfold Main.post_expand. rewrite Hi, Hp. reflexivity. Qed.

Lemma form_str_absent (r : Main.Request) (name default : string) :
  Main.form r !! name = None -> Main.form_str name default r = Some default.
Proof. intros Hn. unfold Main.form_str. rewrite Hn. reflexivity. Qed.

Lemma form_str_text (r : Main.Request) (name default value : string) :
  Main.form r !! name = Some (Main.TextPart value) ->
  Main.form_str name default r = Some value.
Proof. intros Hn. unfold Main.form_str. rewrite Hn. reflexivity. Qed.

Lemma post_edit_unbound (r : Main.Request) :
  Main.query r !! "prompt" = None -> Main.post_edit r = (validation_error, []).
Proof.
  intros Hq. unfold Main.post_edit, Main.query_str. rewrite Hq.
  destruct (Main.upload_file "image" r), (Main.upload_file "mask" r); reflexivity.
Qed.

Lemma post_expand_unbound (r : Main.Request) :
  Main.query r !! "prompt" = None -> Main.post_expand r = (validation_error, []).
Proof.
  intros Hq. unfold Main.post_expand, Main.query_str. rewrite Hq.
  destruct (Main.upload_file "image" r); reflexivity.
Qed.

(** C1. Each of the four placeholder functions returns its image argument,
    whatever the mask and the prompt; each of the four handlers returns a
    stream of the single chunk [image] with media type [image/png]; and
    each route, on a request whose parameters bind, answers 200 with that
    one-chunk [image/png] stream, whose body is the uploaded image. *)
Theorem mock_output_is_input (image mask : bytes) (prompt : string) :
  (turbo_generate_bg image prompt = image
   /\ turbo_inpaint image mask prompt = image
   /\ pix2pix_edit image mask prompt = image
   /\ gligen_expand image prompt = image)
  /\ (let stream := {| Main.body_iterator := [image];
                       Main.stream_media_type := "image/png" |} in
      (Main.generate_bg image prompt).1 = stream
      /\ (Main.inpaint image mask prompt).1 = stream
      /\ (Main.edit image mask prompt).1 = stream
      /\ (Main.expand image prompt).1 = stream)
  /\ (forall r,
        Main.upload_file "image" r = Some image ->
        (Main.form_str "prompt" "" r = Some prompt ->
         (Main.post_generate_bg r).1 = png_stream image)
        /\ (Main.upload_file "mask" r = Some mask ->
            Main.form_str "prompt" "" r = Some prompt ->
            (Main.post_inpaint r).1 = png_stream image)
        /\ (Main.upload_file "mask" r = Some mask ->
            Main.query_str "prompt" r = Some prompt ->
            (Main.post_edit r).1 = png_stream image)
        /\ (Main.query_str "prompt" r = Some prompt ->
            (Main.post_expand r).1 = png_stream image))
  /\ content (png_stream image) = Stream [image] "image/png"
  /\ stream_body [image] = image.
Proof.
  split; [repeat split|].
  split; [repeat split|].
  split; [|split; [reflexivity | apply stream_body_single]].
  intros r Hi. repeat split.
  - intros Hp. now rewrite (post_generate_bg_bound r image prompt).
  - intros Hm Hp. now rewrite (post_inpaint_bound r image mask prompt).
  - intros Hm Hp. now rewrite (post_edit_bound r image mask prompt).
  - intros Hp. now rewrite (post_expand_bound r image prompt).
Qed.

Lemma mock_output_is_input_witness :
  let image := [Byte.x89; Byte.x50; Byte.x0a; Byte.x47] in
  let mask := [Byte.xff] in
  let r := Main.full_request image (Some mask) "a red door" in
  (Main.post_generate_bg r).1 = png_stream image
  /\ (Main.post_inpaint r).1 = png_stream image
  /\ (Main.post_edit r).1 = png_stream image
  /\ (Main.post_expand r).1 = png_stream image.
Proof.
  intros image mask r.
  destruct (mock_output_is_input image mask "a red door") as (_ & _ & Hroutes & _).
  destruct (Hroutes r) as (Hbg & Hin & Hed & Hex); [vm_compute; reflexivity|].
  split; [apply Hbg; vm_compute; reflexivity|].
  split; [apply Hin; vm_compute; reflexivity|].
  split; [apply Hed; vm_compute; reflexivity|].
  apply Hex; vm_compute; reflexivity.
Defined.

(** C10. The prompt is an optional form field on [/generate_bg] and
    [/inpaint], where it defaults to the empty string: a request with the
    uploads and no prompt field runs the generation function with prompt
    [""] and is answered with the stream, and a request whose form has a
    text field [prompt] runs it with that text.  On [/edit] and [/expand]
    it is required: a request without a prompt parameter is answered with
    the validation error 422 and no generation function is called,
    whatever else it carries; with the prompt supplied the same routes
    run. *)
Theorem prompt_optional_or_required (r : Main.Request) :
  (forall image,
     Main.upload_file "image" r = Some image ->
     Main.form r !! "prompt" = None ->
     Main.post_generate_bg r = (png_stream image, [Main.CallTurboGenerateBg image ""]))
  /\ (forall image mask,
        Main.upload_file "image" r = Some image ->
        Main.upload_file "mask" r = Some mask ->
        Main.form r !! "prompt" = None ->
        Main.post_inpaint r = (png_stream image, [Main.CallTurboInpaint image mask ""]))
  /\ (Main.query r !! "prompt" = None ->
      Main.post_edit r = (validation_error, [])
      /\ Main.post_expand r = (validation_error, []))
  /\ (forall image mask prompt,
        Main.upload_file "image" r = Some image ->
        Main.query r !! "prompt" = Some prompt ->
        (Main.upload_file "mask" r = Some mask ->
         Main.post_edit r = (png_stream image, [Main.CallPix2pixEdit image mask prompt]))
        /\ Main.post_expand r = (png_stream image, [Main.CallGligenExpand image prompt]))
  /\ (forall image prompt,
        Main.upload_file "image" r = Some image ->
        Main.form r !! "prompt" = Some (Main.TextPart prompt) ->
        Main.post_generate_bg r
          = (png_stream image, [Main.CallTurboGenerateBg image prompt])
        /\ forall mask,
             Main.upload_file "mask" r = Some mask ->
             Main.post_inpaint r
               = (png_stream image, [Main.CallTurboInpaint image mask prompt]))
  /\ status_code validation_error = 422.
Proof.
  repeat split.
  - intros image Hi Hp. apply post_generate_bg_bound; [exact Hi|].
    now apply form_str_absent.
  - intros image mask Hi Hm Hp. apply post_inpaint_bound; [exact Hi|exact Hm|].
    now apply form_str_absent.
  - now apply post_edit_unbound.
  - now apply post_expand_unbound.
  - intros Hm. now apply post_edit_bound.
  - now apply post_expand_bound.
  - apply post_generate_bg_bound; [assumption|]. now apply form_str_text.
  - intros mask Hm. apply post_inpaint_bound; [assumption|exact Hm|].
    now apply form_str_text.
Qed.

Lemma prompt_optional_or_required_witness :
  let image := [Byte.x01; Byte.x02] in
  let mask := [Byte.x03] in
  Main.post_generate_bg (Main.uploads_only image None)
    = (png_stream image, [Main.CallTurboGenerateBg image ""])
  /\ Main.post_inpaint (Main.uploads_only image (Some mask))
     = (png_stream image, [Main.CallTurboInpaint image mask ""])
  /\ Main.post_edit (Main.uploads_only image (Some mask)) = (validation_error, [])
  /\ Main.post_expand (Main.uploads_only image None) = (validation_error, [])
  /\ Main.post_generate_bg (Main.full_request image (Some mask) "a red door")
     = (png_stream image, [Main.CallTurboGenerateBg image "a red door"])
  /\ Main.post_inpaint (Main.full_request image (Some mask) "a red door")
     = (png_stream image, [Main.CallTurboInpaint image mask "a red door"]).
Proof.
  intros image mask.
  split.
  { destruct (prompt_optional_or_required (Main.uploads_only image None))
      as (Hbg & _).
    apply Hbg; vm_compute; reflexivity. }
  split.
  { destruct (prompt_optional_or_required (Main.uploads_only image (Some mask)))
      as (_ & Hin & _).
    apply Hin; vm_compute; reflexivity. }
  split.
  { destruct (prompt_optional_or_required (Main.uploads_only image (Some mask)))
      as (_ & _ & Hrej & _).
    apply Hrej; vm_compute; reflexivity. }
  split.
  { destruct (prompt_optional_or_required (Main.uploads_only image None))
      as (_ & _ & Hrej & _).
    apply Hrej; vm_compute; reflexivity. }
  destruct (prompt_optional_or_required
              (Main.full_request image (Some mask) "a red door"))
    as (_ & _ & _ & _ & Htext & _).
  destruct (Htext image "a red door") as [Hbg Hin];
    [vm_compute; reflexivity | vm_compute; reflexivity |].
  split; [exact Hbg|]. apply Hin. vm_compute. reflexivity.
Defined.

End MockRouter.

(** ** The pipeline-backed service *)

Section Backend.
Import SimpleBackend.
Context `{Foreign} `{Validators}.

Ltac run :=
  unfold generate_background, generate_image, health_check, get_models,
    try_except, bind, ret, raise, read_pipe, write_pipe, logger, foreign,
    invoke, cuda, first_image in *;
  simpl in *.

Ltac route :=
  unfold serve, with_body, respond in *; simpl in *.

(** *** The handler of [/sdapi/v1/txt2img], case by case *)

Lemma generate_image_unloaded (request : GenerateRequest) (s : State) :
  pipe s = None ->
  generate_image request s = (inl (HTTPException 503 "Pipeline not loaded"), s).
Proof. intros Hp. run. rewrite Hp. reflexivity. Qed.




Lemma generate_image_returns (request : GenerateRequest) (s : State)
    (p : Pipeline) (image : Image) (images : list Image) (data : bytes) (w w' : World) :
  pipe s = Some p ->
  pipeline_call p (kwargs_of request) (world s) = (inr (image :: images), w) ->
  image_save image "PNG" w = (inr data, w') ->
  (generate_image request s).1
    = inr {| body_iterator := bytesio_iter data; stream_media_type := "image/png" |}
  /\ invocations (generate_image request s).2 = invocations s ++ [kwargs_of request].
Proof. intros Hp Hc Hs. run. rewrite Hp, Hc. simpl. rewrite Hs. split; reflexivity. Qed.

Lemma generate_image_status (request : GenerateRequest) (s : State)
    (code : Z) (detail : string) :
  (generate_image request s).1 = inl (HTTPException code detail) ->
  (code = 503 /\ pipe s = None) \/ (code = 500 /\ pipe s <> None).
Proof.
  intros Hr. run. destruct (pipe s) as [p|] eqn:Hp; simpl in Hr; [right | left].
  - destruct (pipeline_call p (kwargs_of request) (world s)) as [[e|[|image images]] w];
      simpl in Hr;
      try destruct (image_save image "PNG" w) as [[e|data] w']; simpl in Hr;
      try destruct (is_Exception e); simpl in Hr;
      try discriminate Hr; injection Hr as <- _; split; congruence.
  - injection Hr as <- _. split; reflexivity.
Qed.


(** No handler assigns the global. *)
Lemma generate_image_pipe (request : GenerateRequest) (s : State) :
  pipe (generate_image request s).2 = pipe s.
Proof.
  run. destruct (pipe s) as [p|] eqn:Hp; simpl; [|exact Hp].
  destruct (pipeline_call p (kwargs_of request) (world s)) as [[e|[|image images]] w];
    simpl; try destruct (image_save image "PNG" w) as [[e|data] w']; simpl;
    try destruct (is_Exception e); simpl; exact Hp.
Qed.


(** *** Routing *)

Lemma with_body_rejects (handler : GenerateRequest -> M Exc StreamingResponse)
    (body : option json) (s : State) :
  validate body = None -> with_body handler body s = (inr validation_error, s).
Proof. intros Hv. unfold with_body. rewrite Hv. reflexivity. Qed.

Lemma txt2img_unloaded (body : option json) (request : GenerateRequest) (s : State) :
  validate body = Some request ->
  pipe s = None ->
  serve (PostTxt2img body) s
    = (inr {| status_code := 503; content := DetailJson "Pipeline not loaded" |}, s).
Proof.
  intros Hv Hp. route. rewrite Hv.
  rewrite (generate_image_unloaded request s Hp). reflexivity.
Qed.

Lemma txt2img_loaded_status (body : option json) (request : GenerateRequest)
    (s : State) (r : HttpResponse) :
  validate body = Some request ->
  pipe s <> None ->
  (serve (PostTxt2img body) s).1 = inr r ->
  status_code r = 200 \/ status_code r = 500.
Proof.
  intros Hv Hp Hr. route. rewrite Hv in Hr.
  destruct (generate_image request s) as [[[code detail|e]|a] s'] eqn:Hg;
    simpl in Hr; try discriminate Hr; injection Hr as <-; simpl.
  - right. destruct (generate_image_status request s code detail) as [[_ Hn]|[Hc _]].
    + rewrite Hg. reflexivity.
    + contradiction.
    + exact Hc.
  - left. reflexivity.
Qed.

Lemma txt2img_raises (body : option json) (request : GenerateRequest)
    (s : State) (detail : string) :
  validate body = Some request ->
  (generate_image request s).1 = inl (HTTPException 500 detail) ->
  (serve (PostTxt2img body) s).1
    = inr {| status_code := 500; content := DetailJson detail |}.
Proof.
  intros Hv Hg. route. rewrite Hv.
  destruct (generate_image request s) as [r s']. simpl in Hg. subst r. reflexivity.
Qed.

Lemma txt2img_invocations (body : option json) (request : GenerateRequest) (s : State) :
  validate body = Some request ->
  invocations (serve (PostTxt2img body) s).2 = invocations (generate_image request s).2.
Proof.
  intros Hv. route. rewrite Hv.
  destruct (generate_image request s) as [[[code detail|e]|a] s']; reflexivity.
Qed.

Lemma respond_pipe {A} (render : A -> Content) (m : M Exc A) (s : State) :
  pipe (respond render m s).2 = pipe (m s).2.
Proof.
  unfold respond. destruct (m s) as [[[code detail|e]|a] s']; reflexivity.
Qed.

Lemma serve_pipe (r : Request) (s : State) : pipe (serve r s).2 = pipe s.
Proof.
  destruct r as [| |body|body]; unfold serve, with_body.
  - rewrite respond_pipe. reflexivity.
  - rewrite respond_pipe. reflexivity.
  - destruct (validate body) as [request|]; [|reflexivity].
    rewrite respond_pipe. apply generate_image_pipe.
  - destruct (validate body) as [request|]; [|reflexivity].
    rewrite respond_pipe. apply generate_image_pipe.
Qed.

Lemma serve_all_pipe (rs : list Request) (s : State) :
  pipe (serve_all rs s) = pipe s.
Proof.
  revert s. induction rs as [|r rs IH]; intros s; simpl.
  - reflexivity.
  - rewrite IH. apply serve_pipe.
Qed.

(** *** The chunks of a streamed buffer *)

Lemma bytesio_iter_concat (data : bytes) : stream_body (bytesio_iter data) = data.
Proof.
  unfold stream_body. induction data as [|x rest IH]; [reflexivity|].
  assert (Hline : concat (match bytesio_iter rest with
                          | [] => [[x]]
                          | line :: lines => (x :: line) :: lines
                          end) = x :: rest).
  { destruct (bytesio_iter rest) as [|line lines]; simpl in *; rewrite <- IH; reflexivity. }
  destruct x; simpl; try exact Hline.
  rewrite IH. reflexivity.
Qed.

(** *** The startup hook, case by case *)

Ltac boot_up :=
  unfold startup_event, try_except, bind, ret, raise, read_pipe, write_pipe,
    logger, foreign, cuda in *;
  simpl in *.

Lemma startup_loads (s : State) (p p' : Pipeline) (w w' : World) :
  from_pretrained "runwayml/stable-diffusion-v1-5"
    (if cuda_is_available (world s) then float16 else float32) false (world s)
    = (inr p, w) ->
  pipeline_to p (if cuda_is_available w then "cuda" else "cpu") w = (inr p', w') ->
  (startup_event s).1 = inr tt /\ pipe (startup_event s).2 = Some p'.
Proof. intros Hl Hm. boot_up. rewrite Hl. simpl. rewrite Hm. split; reflexivity. Qed.

Lemma startup_load_fails (s : State) (e : PyExc) (w : World) :
  from_pretrained "runwayml/stable-diffusion-v1-5"
    (if cuda_is_available (world s) then float16 else float32) false (world s)
    = (inl e, w) ->
  is_Exception e = true ->
  (startup_event s).1 = inr tt /\ pipe (startup_event s).2 = None.
Proof. intros Hl He. boot_up. rewrite Hl. simpl. rewrite He. split; reflexivity. Qed.

Lemma startup_move_fails (s : State) (p : Pipeline) (e : PyExc) (w w' : World) :
  from_pretrained "runwayml/stable-diffusion-v1-5"
    (if cuda_is_available (world s) then float16 else float32) false (world s)
    = (inr p, w) ->
  pipeline_to p (if cuda_is_available w then "cuda" else "cpu") w = (inl e, w') ->
  is_Exception e = true ->
  (startup_event s).1 = inr tt /\ pipe (startup_event s).2 = None.
Proof.
  intros Hl Hm He. boot_up. rewrite Hl. simpl. rewrite Hm. simpl. rewrite He.
  split; reflexivity.
Qed.

Lemma startup_returns (s : State) :
  (startup_event s).1 = inr tt ->
  (exists p w p' w',
     from_pretrained "runwayml/stable-diffusion-v1-5"
       (if cuda_is_available (world s) then float16 else float32) false (world s)
       = (inr p, w)
     /\ pipeline_to p (if cuda_is_available w then "cuda" else "cpu") w = (inr p', w')
     /\ pipe (startup_event s).2 = Some p')
  \/ (pipe (startup_event s).2 = None
      /\ ((exists e w,
             from_pretrained "runwayml/stable-diffusion-v1-5"
               (if cuda_is_available (world s) then float16 else float32) false
               (world s) = (inl e, w))
          \/ (exists p w e w',
                from_pretrained "runwayml/stable-diffusion-v1-5"
                  (if cuda_is_available (world s) then float16 else float32) false
                  (world s) = (inr p, w)
                /\ pipeline_to p (if cuda_is_available w then "cuda" else "cpu") w
                   = (inl e, w')))).
Proof.
  intros Hr.
  destruct (from_pretrained "runwayml/stable-diffusion-v1-5"
              (if cuda_is_available (world s) then float16 else float32) false
              (world s)) as [[e|p] w] eqn:Hl.
  - right. destruct (is_Exception e) eqn:He.
    + split; [apply (startup_load_fails s e w Hl He) | left; eauto].
    + boot_up. rewrite Hl in Hr. simpl in Hr. rewrite He in Hr. discriminate Hr.
  - destruct (pipeline_to p (if cuda_is_available w then "cuda" else "cpu") w)
      as [[e|p'] w'] eqn:Hm.
    + right. destruct (is_Exception e) eqn:He.
      * split; [apply (startup_move_fails s p e w w' Hl Hm He) | right; eauto 6].
      * boot_up. rewrite Hl in Hr. simpl in Hr. rewrite Hm in Hr. simpl in Hr.
        rewrite He in Hr. discriminate Hr.
    + left. exists p, w, p', w'. split; [reflexivity|]. split; [exact Hm|].
      apply (startup_loads s p p' w w' Hl Hm).
Qed.

(** *** The claims about the service *)

(** C2. When the global [pipe] is [None], the handler of
    [/sdapi/v1/txt2img] raises the HTTP error 503 and leaves the whole
    state as it was, so the pipeline is not invoked; when [pipe] is set, it
    raises no 503.  The same holds of the route on a body that validates.
    In particular every generation call in the freshly booted process, or
    after a startup whose load raised, is answered with 503. *)
Theorem unloaded_pipeline_gives_503 (request : GenerateRequest) (s : State) :
  (pipe s = None ->
   generate_image request s = (inl (HTTPException 503 "Pipeline not loaded"), s))
  /\ (pipe s <> None ->
      forall detail, (generate_image request s).1 <> inl (HTTPException 503 detail))
  /\ (forall body,
        validate body = Some request ->
        (pipe s = None ->
         serve (PostTxt2img body) s
           = (inr {| status_code := 503; content := DetailJson "Pipeline not loaded" |}, s))
        /\ (pipe s <> None ->
            forall r, (serve (PostTxt2img body) s).1 = inr r -> status_code r <> 503))
  /\ (forall w,
        generate_image request (boot w)
          = (inl (HTTPException 503 "Pipeline not loaded"), boot w))
  /\ (forall e w,
        from_pretrained "runwayml/stable-diffusion-v1-5"
          (if cuda_is_available (world s) then float16 else float32) false (world s)
          = (inl e, w) ->
        is_Exception e = true ->
        generate_image request (startup_event s).2
          = (inl (HTTPException 503 "Pipeline not loaded"), (startup_event s).2)).
Proof.
  split; [apply generate_image_unloaded|].
  split.
  { intros Hp detail Hr.
    destruct (generate_image_status request s 503 detail Hr) as [[_ Hn]|[Hc _]];
      [contradiction | discriminate Hc]. }
  split.
  { intros body Hv. split.
    - now apply (txt2img_unloaded body request).
    - intros Hp r Hr.
      destruct (txt2img_loaded_status body request s r Hv Hp Hr) as [-> | ->];
        discriminate. }
  split.
  { intros w. now apply generate_image_unloaded. }
  intros e w Hl He. apply generate_image_unloaded.
  apply (startup_load_fails s e w Hl He).
Qed.


(** C4. [/health] always answers 200 with an object of the two fields
    [status] and [models], and changes nothing.  The object is
    [unhealthy] with an empty list when [pipe] is [None], and [healthy]
    with the one-element list otherwise; so it is [unhealthy] with the
    empty list exactly when [pipe] is [None]. *)
Theorem health_reports_pipe (s : State) :
  exists h : HealthResponse,
    health_check s = (inr h, s)
    /\ serve GetHealth s = (inr {| status_code := 200; content := HealthJson h |}, s)
    /\ ((pipe s = None /\ h = {| status := "unhealthy"; models := [] |})
        \/ (pipe s <> None
            /\ h = {| status := "healthy"; models := ["stable-diffusion-v1-5"] |}))
    /\ (status h = "unhealthy" /\ models h = [] <-> pipe s = None).
Proof.
  unfold serve, respond. run.
  destruct (pipe s) as [p|] eqn:Hp; eexists; (split; [reflexivity|]);
    (split; [reflexivity|]); simpl.
  - split; [right; split; [discriminate | reflexivity]|].
    split; [intros [Hs _]; discriminate Hs | discriminate].
  - split; [left; split; reflexivity|].
    split; [reflexivity | intros _; split; reflexivity].
Qed.

(** C5, as amended. [/sdapi/v1/sd-models] gives the same answer in any two
    states.  [/health] always answers with status code 200, and gives the
    same answer in any two states that agree on whether [pipe] is [None];
    in two states that disagree on it the answers differ. *)
Theorem static_up_to_pipe (s1 s2 : State) :
  (serve GetSdModels s1).1 = (serve GetSdModels s2).1
  /\ ((pipe s1 = None <-> pipe s2 = None) ->
      (serve GetHealth s1).1 = (serve GetHealth s2).1)
  /\ (pipe s1 = None -> pipe s2 <> None ->
      (serve GetHealth s1).1 <> (serve GetHealth s2).1)
  /\ (exists h, (serve GetHealth s1).1
                = inr {| status_code := 200; content := HealthJson h |}).
Proof.
  unfold serve, respond. run. split; [reflexivity|]. split; [|split].
  - intros [H12 H21]. destruct (pipe s1) as [p1|], (pipe s2) as [p2|]; simpl;
      try reflexivity.
    + discriminate (H21 eq_refl).
    + discriminate (H12 eq_refl).
  - intros -> Hn. destruct (pipe s2) as [p2|]; simpl; [discriminate | contradiction].
  - eexists. reflexivity.
Qed.

(** C7. A body of [/sdapi/v1/txt2img] that does not validate is answered
    with the validation error, a 4xx status, and the state is left as it
    was, so the pipeline is not invoked.  A body does not validate when it
    is not JSON, when it is JSON but not an object, when the object has no
    [prompt], or when a field that is present is refused by its validator. *)
Theorem malformed_body_rejected (s : State) :
  (forall body,
     validate body = None ->
     serve (PostTxt2img body) s = (inr validation_error, s)
     /\ invocations (serve (PostTxt2img body) s).2 = invocations s)
  /\ is_client_error validation_error
  /\ validate None = None
  /\ (forall j, (forall d, j <> JDict d) -> validate (Some j) = None)
  /\ (forall d, d !! "prompt" = None -> validate (Some (JDict d)) = None)
  /\ (forall d j,
        (d !! "prompt" = Some j /\ coerce_str j = None)
        \/ (d !! "width" = Some j /\ coerce_int j = None)
        \/ (d !! "height" = Some j /\ coerce_int j = None)
        \/ (d !! "num_inference_steps" = Some j /\ coerce_int j = None)
        \/ (d !! "guidance_scale" = Some j /\ coerce_float j = None) ->
        validate (Some (JDict d)) = None).
Proof.
  split.
  { intros body Hv. unfold serve. rewrite (with_body_rejects _ body s Hv).
    split; reflexivity. }
  split; [unfold is_client_error; simpl; lia|].
  split; [reflexivity|].
  split.
  { intros j Hj. destruct j; try reflexivity. now destruct (Hj d). }
  split.
  { intros d Hd. unfold validate, field. rewrite Hd. reflexivity. }
  intros d j Hbad. unfold validate, field.
  destruct Hbad as [[Hd Hc]|[[Hd Hc]|[[Hd Hc]|[[Hd Hc]|[Hd Hc]]]]];
    rewrite Hd, Hc; simpl;
    repeat (match goal with
            | |- context [mbind _ ?m] => destruct m; simpl
            | |- context [match ?d !! ?k with _ => _ end] => destruct (d !! k); simpl
            end);
    try reflexivity.
Qed.

(** C8. The global [pipe] is one field of the process state.  It is
    [None] when the module is imported.  The startup hook, when it returns,
    leaves it set to the pipeline it loaded and moved to the device, or to
    [None] when one of these two steps raised.  No handler and no route
    changes it, so it keeps its value along any sequence of requests. *)
Theorem pipe_assigned_only_at_startup :
  (forall w, pipe (boot w) = None)
  /\ (forall s,
        (startup_event s).1 = inr tt ->
        (exists p w p' w',
           from_pretrained "runwayml/stable-diffusion-v1-5"
             (if cuda_is_available (world s) then float16 else float32) false
             (world s) = (inr p, w)
           /\ pipeline_to p (if cuda_is_available w then "cuda" else "cpu") w
              = (inr p', w')
           /\ pipe (startup_event s).2 = Some p')
        \/ (pipe (startup_event s).2 = None
            /\ ((exists e w,
                   from_pretrained "runwayml/stable-diffusion-v1-5"
                     (if cuda_is_available (world s) then float16 else float32)
                     false (world s) = (inl e, w))
                \/ (exists p w e w',
                      from_pretrained "runwayml/stable-diffusion-v1-5"
                        (if cuda_is_available (world s) then float16 else float32)
                        false (world s) = (inr p, w)
                      /\ pipeline_to p (if cuda_is_available w then "cuda" else "cpu") w
                         = (inl e, w')))))
  /\ (forall s request,
        pipe (health_check s).2 = pipe s
        /\ pipe (get_models s).2 = pipe s
        /\ pipe (generate_image request s).2 = pipe s
        /\ pipe (generate_background request s).2 = pipe s)
  /\ (forall r s, pipe (serve r s).2 = pipe s)
  /\ (forall rs s, pipe (serve_all rs s) = pipe s).
Proof.
  split; [reflexivity|].
  split; [apply startup_returns|].
  split.
  { intros s request. split; [reflexivity|]. split; [reflexivity|].
    split; apply generate_image_pipe. }
  split; [apply serve_pipe | apply serve_all_pipe].
Qed.

(** C9. In the pipeline-backed service [/generate_bg] binds its body to
    the same [GenerateRequest] as [/sdapi/v1/txt2img] and gives, in every
    state and for every body, the same answer and the same final state:
    the validation error on a body that does not validate, 503 while the
    pipeline is not loaded, 500 with the same detail when generation
    raises. *)
Theorem generate_bg_is_txt2img (body : option json) (s : State) :
  serve (PostGenerateBg body) s = serve (PostTxt2img body) s
  /\ (forall request, generate_background request s = generate_image request s)
  /\ (validate body = None ->
      serve (PostGenerateBg body) s = (inr validation_error, s))
  /\ (forall request,
        validate body = Some request ->
        (pipe s = None ->
         serve (PostGenerateBg body) s
           = (inr {| status_code := 503; content := DetailJson "Pipeline not loaded" |}, s))
        /\ (forall detail,
              (generate_image request s).1 = inl (HTTPException 500 detail) ->
              (serve (PostGenerateBg body) s).1
                = inr {| status_code := 500; content := DetailJson detail |})).
Proof.
  assert (Hsame : serve (PostGenerateBg body) s = serve (PostTxt2img body) s)
    by reflexivity.
  split; [exact Hsame|]. split; [reflexivity|]. split.
  - intros Hv. apply with_body_rejects, Hv.
  - intros request Hv. rewrite Hsame. split.
    + intros Hp. now apply (txt2img_unloaded body request).
    + intros detail Hg. now apply (txt2img_raises body request).
Qed.

Lemma validate_default_size (d : gmap string json) (text : string) (n : Z) (g : float) :
  d !! "width" = None ->
  d !! "height" = None ->
  field coerce_str "prompt" None d = Some text ->
  field coerce_int "num_inference_steps" (Some 20) d = Some n ->
  field coerce_float "guidance_scale" (Some 7.5%float) d = Some g ->
  validate (Some (JDict d))
    = Some {| prompt := text; width := 512; height := 512;
              num_inference_steps := n; guidance_scale := g |}.
Proof.
  intros Hw Hh Hp Hn Hg. unfold validate. rewrite Hp, Hn, Hg.
  unfold field. rewrite Hw, Hh. reflexivity.
Qed.

(** C6, as amended. With the pipeline loaded, a body whose [prompt]
    validates and that has no [width] and no [height] makes the route
    invoke the pipeline once, with that prompt, width 512, height 512 and
    the [num_inference_steps] and [guidance_scale] of the body, which are
    20 and 7.5 when the body omits them too.  When that invocation returns
    an image whose PNG encoding succeeds, the answer is 200 with an
    [image/png] stream whose chunks make up the encoded bytes; these are a
    well-formed PNG of size 512 x 512 provided the pipeline returns
    pictures of the requested size and the encoder writes PNG data of the
    size of the picture. *)
Theorem txt2img_default_size (s : State) (p : Pipeline) (d : gmap string json)
    (text : string) (n : Z) (g : float) :
  pipe s = Some p ->
  d !! "width" = None ->
  d !! "height" = None ->
  field coerce_str "prompt" None d = Some text ->
  field coerce_int "num_inference_steps" (Some 20) d = Some n ->
  field coerce_float "guidance_scale" (Some 7.5%float) d = Some g ->
  let kw := {| kw_prompt := text; kw_width := 512; kw_height := 512;
               kw_num_inference_steps := n; kw_guidance_scale := g |} in
  let answer := serve (PostTxt2img (Some (JDict d))) s in
  invocations answer.2 = invocations s ++ [kw]
  /\ (d !! "num_inference_steps" = None -> n = 20)
  /\ (d !! "guidance_scale" = None -> g = 7.5%float)
  /\ (forall image images w data w',
        pipeline_call p kw (world s) = (inr (image :: images), w) ->
        image_save image "PNG" w = (inr data, w') ->
        answer.1 = inr {| status_code := 200;
                          content := Stream (bytesio_iter data) "image/png" |}
        /\ stream_body (bytesio_iter data) = data
        /\ (honours_size p -> png_codec_sound -> png_open data = Some (512, 512))).
Proof.
  intros Hp Hw Hh Ht Hn Hg kw answer.
  pose proof (validate_default_size d text n g Hw Hh Ht Hn Hg) as Hv.
  set (request := {| prompt := text; width := 512; height := 512;
                     num_inference_steps := n; guidance_scale := g |}) in Hv.
  assert (Hkw : kwargs_of request = kw) by reflexivity.
  split.
  { unfold answer. rewrite (txt2img_invocations _ request s Hv).
    unfold generate_image, try_except, bind, ret, raise, read_pipe, logger,
      foreign, invoke, first_image; simpl.
    rewrite Hp, Hkw.
    destruct (pipeline_call p kw (world s)) as [[e|[|image images]] w]; simpl;
      try destruct (image_save image "PNG" w) as [[e|data] w']; simpl;
      try destruct (is_Exception e); reflexivity. }
  split.
  { intros Ha. unfold field in Hn. rewrite Ha in Hn. now injection Hn as <-. }
  split.
  { intros Ha. unfold field in Hg. rewrite Ha in Hg. now injection Hg as <-. }
  intros image images w data w' Hc Hs.
  rewrite <- Hkw in Hc.
  destruct (generate_image_returns request s p image images data w w' Hp Hc Hs)
    as [Hr _].
  split.
  { unfold answer, serve, with_body, respond. rewrite Hv.
    destruct (generate_image request s) as [r s']. simpl in Hr. subst r.
    reflexivity. }
  split; [apply bytesio_iter_concat|].
  intros Hsize Hcodec.
  rewrite (Hcodec image w data w' Hs).
  rewrite (Hsize (kwargs_of request) (world s) (image :: images) w Hc image).
  - reflexivity.
  - apply list_elem_of_here.
Qed.

End Backend.

(** ** The services on the small instance *)

Section OnToy.
Import SimpleBackend Toy.

Lemma byte_of_value (z : Z) :
  0 <= z < 256 -> Z.of_N (Byte.to_N (byte_of z)) = z.
Proof.
  intros Hz. unfold byte_of.
  destruct (Byte.of_N (Z.to_N z)) as [b|] eqn:Hb; simpl.
  - apply Byte.to_of_N in Hb. rewrite Hb. lia.
  - apply Byte.of_N_None_iff in Hb. lia.
Qed.

Lemma be32_value (z : Z) :
  in_range z = true ->
  match be32 z with
  | [a; b; c; d] => of_be32 a b c d = z
  | _ => False
  end.
Proof.
  unfold in_range. intros Hz. apply andb_prop in Hz as [Hlo Hhi].
  apply Z.leb_le in Hlo. apply Z.ltb_lt in Hhi.
  unfold be32, of_be32.
  rewrite !byte_of_value.
  - pose proof (Z.div_mod z 256 ltac:(lia)) as H0.
    pose proof (Z.div_mod (z / 256) 256 ltac:(lia)) as H1.
    pose proof (Z.div_mod (z / 256 / 256) 256 ltac:(lia)) as H2.
    replace (z / 65536) with (z / 256 / 256)
      by (rewrite Z.div_div by lia; reflexivity).
    replace (z / 16777216) with (z / 256 / 256 / 256)
      by (rewrite !Z.div_div by lia; reflexivity).
    lia.
  - apply Z.mod_pos_bound. lia.
  - apply Z.mod_pos_bound. lia.
  - apply Z.mod_pos_bound. lia.
  - split; [apply Z.div_pos; lia | apply Z.div_lt_upper_bound; lia].
Qed.

Lemma open_encode (size : Z * Z) :
  in_range size.1 = true -> in_range size.2 = true -> open (encode size) = Some size.
Proof.
  intros Hw Hh. destruct size as [w h]. simpl in *.
  pose proof (be32_value w Hw) as Ew. pose proof (be32_value h Hh) as Eh.
  unfold encode, open. simpl. unfold be32 in *. simpl. rewrite Ew, Eh. reflexivity.
Qed.

Lemma toy_codec_sound : png_codec_sound.
Proof.
  intros image w data w' Hs. simpl in *. unfold save in Hs.
  destruct (in_range image.1) eqn:Hw; [|discriminate Hs].
  destruct (in_range image.2) eqn:Hh; [|discriminate Hs].
  simpl in Hs. injection Hs as <- _. now apply open_encode.
Qed.

Lemma toy_honours_size (p : pipeline) : honours_size p.
Proof.
  intros kw w images w' Hc image Hin. simpl in *. unfold sample in Hc.
  destruct ((kw_width kw mod 8 =? 0) && (kw_height kw mod 8 =? 0));
    [|discriminate Hc].
  injection Hc as <- _. apply list_elem_of_singleton in Hin. exact Hin.
Qed.

Lemma unloaded_pipeline_gives_503_witness :
  let request := {| prompt := "a cat"; width := 512; height := 512;
                    num_inference_steps := 20; guidance_scale := 7.5%float |} in
  generate_image request (started offline)
    = (inl (HTTPException 503 "Pipeline not loaded"), started offline)
  /\ (generate_image request (started ready)).1
     <> inl (HTTPException 503 "Pipeline not loaded")
  /\ serve (PostTxt2img (Some prompt_only)) (started offline)
     = (inr {| status_code := 503; content := DetailJson "Pipeline not loaded" |},
        started offline).
Proof.
  intros request.
  destruct (unloaded_pipeline_gives_503 request (started offline))
    as (Hnone & _ & Hroute & _ & Hstart).
  destruct (unloaded_pipeline_gives_503 request (started ready))
    as (_ & Hsome & _).
  split; [apply Hnone; vm_compute; reflexivity|].
  split; [apply Hsome; vm_compute; discriminate|].
  destruct (Hroute (Some prompt_only)) as [H503 _]; [vm_compute; reflexivity|].
  apply H503. vm_compute. reflexivity.
Defined.


Lemma health_reports_pipe_witness :
  (health_check (started offline)).1 = inr {| status := "unhealthy"; models := [] |}
  /\ (health_check (started ready)).1
     = inr {| status := "healthy"; models := ["stable-diffusion-v1-5"] |}.
Proof.
  split.
  - destruct (health_reports_pipe (started offline)) as (h & Hh & _ & [[_ ->]|[Hn _]] & _).
    + rewrite Hh. reflexivity.
    + exfalso. apply Hn. vm_compute. reflexivity.
  - destruct (health_reports_pipe (started ready)) as (h & Hh & _ & [[Hn _]|[_ ->]] & _).
    + exfalso. vm_compute in Hn. discriminate Hn.
    + rewrite Hh. reflexivity.
Defined.

(** C5, as stated, fails: after a failed load and after a successful one
    [/health] gives two different answers. *)
Lemma health_not_static :
  (serve GetHealth (started offline)).1
    = inr {| status_code := 200;
             content := HealthJson {| status := "unhealthy"; models := [] |} |}
  /\ (serve GetHealth (started ready)).1
     = inr {| status_code := 200;
              content := HealthJson {| status := "healthy";
                                       models := ["stable-diffusion-v1-5"] |} |}
  /\ (serve GetHealth (started offline)).1 <> (serve GetHealth (started ready)).1.
Proof.
  split; [vm_compute; reflexivity|]. split; [vm_compute; reflexivity|].
  vm_compute. discriminate.
Qed.

Lemma static_up_to_pipe_witness :
  (serve GetSdModels (started offline)).1 = (serve GetSdModels (started ready)).1
  /\ (serve GetHealth (boot (H := libraries) ready)).1 = (serve GetHealth (started offline)).1.
Proof.
  split.
  - apply (static_up_to_pipe (started offline) (started ready)).
  - destruct (static_up_to_pipe (boot (H := libraries) ready) (started offline)) as (_ & Hsame & _).
    apply Hsame. vm_compute. split; reflexivity.
Defined.

Lemma malformed_body_rejected_witness :
  serve (PostTxt2img None) (started ready) = (inr validation_error, started ready)
  /\ serve (PostTxt2img (Some (JDict {[ "width" := JInt 256 ]}))) (started ready)
     = (inr validation_error, started ready)
  /\ serve (PostTxt2img (Some (JDict {[ "prompt" := JInt 3 ]}))) (started ready)
     = (inr validation_error, started ready).
Proof.
  destruct (malformed_body_rejected (started ready))
    as (Hrej & _ & Hnone & _ & Hmissing & Hrefused).
  split; [apply Hrej, Hnone|].
  split.
  - apply Hrej, Hmissing. vm_compute. reflexivity.
  - apply Hrej, (Hrefused _ (JInt 3)). left. split; vm_compute; reflexivity.
Defined.

Lemma pipe_assigned_only_at_startup_witness :
  pipe (started ready) = Some {| device := "cpu" |}
  /\ pipe (started offline) = None
  /\ pipe (serve_all [GetHealth; PostTxt2img (Some prompt_only); PostGenerateBg None;
                      GetSdModels] (started ready))
     = pipe (started ready).
Proof.
  destruct pipe_assigned_only_at_startup as (_ & Hstart & _ & _ & Htraffic).
  split; [|split].
  - destruct (Hstart (boot (H := libraries) ready)) as [(p & w & p' & w' & Hl & Hm & Hp)|[Hp _]];
      [vm_compute; reflexivity | |].
    + vm_compute in Hl. injection Hl as <- <-.
      vm_compute in Hm. injection Hm as <- _. exact Hp.
    + vm_compute in Hp. discriminate Hp.
  - destruct (Hstart (boot (H := libraries) offline)) as [(p & w & p' & w' & Hl & _)|[Hp _]];
      [vm_compute; reflexivity | |].
    + vm_compute in Hl. discriminate Hl.
    + exact Hp.
  - apply Htraffic.
Defined.

Lemma generate_bg_is_txt2img_witness :
  serve (PostGenerateBg None) (started ready) = (inr validation_error, started ready)
  /\ serve (PostGenerateBg (Some prompt_only)) (started offline)
     = (inr {| status_code := 503; content := DetailJson "Pipeline not loaded" |},
        started offline)
  /\ serve (PostGenerateBg (Some prompt_only)) (started ready)
     = serve (PostTxt2img (Some prompt_only)) (started ready).
Proof.
  split; [|split].
  - destruct (generate_bg_is_txt2img None (started ready)) as (_ & _ & Hrej & _).
    apply Hrej. reflexivity.
  - destruct (generate_bg_is_txt2img (Some prompt_only) (started offline))
      as (_ & _ & _ & Herr).
    destruct (Herr {| prompt := "a cat"; width := 512; height := 512;
                      num_inference_steps := 20; guidance_scale := 7.5%float |})
      as [H503 _]; [vm_compute; reflexivity|].
    apply H503. vm_compute. reflexivity.
  - apply (generate_bg_is_txt2img (Some prompt_only) (started ready)).
Defined.

(** C6, as stated, fails: a body with a valid prompt, no [width] and no
    [height], and 50 inference steps makes the pipeline run with 50 steps,
    not 20. *)
Lemma txt2img_steps_not_default :
  let d : gmap string json :=
    <[ "num_inference_steps" := JInt 50 ]> {[ "prompt" := JStr "a cat" ]} in
  let answer := serve (PostTxt2img (Some (JDict d))) (started ready) in
  d !! "width" = None
  /\ d !! "height" = None
  /\ field coerce_str "prompt" None d = Some "a cat"
  /\ invocations answer.2
     = [{| kw_prompt := "a cat"; kw_width := 512; kw_height := 512;
           kw_num_inference_steps := 50; kw_guidance_scale := 7.5%float |}]
  /\ ~ (forall kw, kw ∈ invocations answer.2 -> kw_num_inference_steps kw = 20).
Proof.
  intros d answer.
  assert (Hinv : invocations answer.2
                 = [{| kw_prompt := "a cat"; kw_width := 512; kw_height := 512;
                       kw_num_inference_steps := 50;
                       kw_guidance_scale := 7.5%float |}])
    by (vm_compute; reflexivity).
  split; [vm_compute; reflexivity|]. split; [vm_compute; reflexivity|].
  split; [vm_compute; reflexivity|]. split; [exact Hinv|].
  intros Hall. rewrite Hinv in Hall.
  specialize (Hall _ (list_elem_of_here _ _)). discriminate Hall.
Qed.

Lemma txt2img_default_size_witness :
  let answer := serve (PostTxt2img (Some prompt_only)) (started ready) in
  let data := encode (512, 512) in
  invocations answer.2
    = [{| kw_prompt := "a cat"; kw_width := 512; kw_height := 512;
          kw_num_inference_steps := 20; kw_guidance_scale := 7.5%float |}]
  /\ answer.1 = inr {| status_code := 200;
                       content := Stream (bytesio_iter data) "image/png" |}
  /\ stream_body (bytesio_iter data) = data
  /\ png_open data = Some (512, 512).
Proof.
  intros answer data.
  destruct (txt2img_default_size (started ready) {| device := "cpu" |}
              {[ "prompt" := JStr "a cat" ]} "a cat" 20 7.5%float)
    as (Hinv & _ & _ & Hpng); try (vm_compute; reflexivity).
  destruct (Hpng (512, 512) [] {| weights_cached := true; gpu := false; draws := 1 |}
              data {| weights_cached := true; gpu := false; draws := 1 |})
    as (Hanswer & Hbody & Hsize); try (vm_compute; reflexivity).
  split; [exact Hinv|]. split; [exact Hanswer|]. split; [exact Hbody|].
  apply Hsize; [apply toy_honours_size | apply toy_codec_sound].
Defined.

End OnToy.

(** * Further properties *)

(** ** The mock router: outcomes, rejections, and what a route reads *)

Section MockRouterOutcomes.

(** X1. Whatever the request, each of the four mock routes either answers
    422 without calling any generation function, or answers 200 after
    exactly one call, which is a call of the route's own function on the
    uploaded image. *)
Theorem mock_route_outcomes (r : Main.Request) :
  (forall route,
     route ∈ [Main.post_generate_bg; Main.post_inpaint; Main.post_edit;
              Main.post_expand] ->
     (route r = (validation_error, []))
     \/ (exists image call,
           Main.upload_file "image" r = Some image
           /\ route r = (png_stream image, [call])))
  /\ (forall image call,
        Main.post_generate_bg r = (png_stream image, [call]) ->
        exists prompt, call = Main.CallTurboGenerateBg image prompt)
  /\ (forall image call,
        Main.post_inpaint r = (png_stream image, [call]) ->
        exists mask prompt, call = Main.CallTurboInpaint image mask prompt)
  /\ (forall image call,
        Main.post_edit r = (png_stream image, [call]) ->
        exists mask prompt, call = Main.CallPix2pixEdit image mask prompt)
  /\ (forall image call,
        Main.post_expand r = (png_stream image, [call]) ->
        exists prompt, call = Main.CallGligenExpand image prompt).
Proof.
  split; [|repeat split].
  - intros route Hroute.
    repeat (apply elem_of_cons in Hroute as [->|Hroute]);
      [ unfold Main.post_generate_bg | unfold Main.post_inpaint
      | unfold Main.post_edit | unfold Main.post_expand
      | now apply elem_of_nil in Hroute ];
      repeat match goal with
             | |- context [match ?o with Some _ => _ | None => _ end] =>
                 destruct o; try (left; reflexivity)
             end;
      right; eexists _, _; split; reflexivity.
  - intros image call. unfold Main.post_generate_bg.
    destruct (Main.upload_file "image" r) as [i|]; [|discriminate].
    destruct (Main.form_str "prompt" "" r) as [prompt|]; [|discriminate].
    intros [= <- <-]. eauto.
  - intros image call. unfold Main.post_inpaint.
    destruct (Main.upload_file "image" r) as [i|]; [|discriminate].
    destruct (Main.upload_file "mask" r) as [mask|]; [|discriminate].
    destruct (Main.form_str "prompt" "" r) as [prompt|]; [|discriminate].
    intros [= <- <-]. eauto.
  - intros image call. unfold Main.post_edit.
    destruct (Main.upload_file "image" r) as [i|]; [|discriminate].
    destruct (Main.upload_file "mask" r) as [mask|]; [|discriminate].
    destruct (Main.query_str "prompt" r) as [prompt|]; [|discriminate].
    intros [= <- <-]. eauto.
  - intros image call. unfold Main.post_expand.
    destruct (Main.upload_file "image" r) as [i|]; [|discriminate].
    destruct (Main.query_str "prompt" r) as [prompt|]; [|discriminate].
    intros [= <- <-]. eauto.
Qed.

Lemma mock_route_outcomes_witness :
  let r := Main.full_request [Byte.x01] (Some [Byte.x02]) "sky" in
  (exists prompt, Main.CallGligenExpand [Byte.x01] "sky"
                  = Main.CallGligenExpand [Byte.x01] prompt)
  /\ (Main.post_edit r = (validation_error, [])
      \/ exists image call,
           Main.upload_file "image" r = Some image
           /\ Main.post_edit r = (png_stream image, [call])).
Proof.
  intros r.
  destruct (mock_route_outcomes r) as (Hall & _ & _ & _ & Hexpand).
  split.
  - apply (Hexpand [Byte.x01] (Main.CallGligenExpand [Byte.x01] "sky")).
    vm_compute. reflexivity.
  - apply Hall. do 2 apply list_elem_of_further. apply list_elem_of_here.
Defined.

Lemma upload_file_not_file (r : Main.Request) (name : string) :
  (Main.form r !! name = None
   \/ exists v, Main.form r !! name = Some (Main.TextPart v)) ->
  Main.upload_file name r = None.
Proof.
  intros [Hn|[v Hv]]; unfold Main.upload_file; [rewrite Hn | rewrite Hv];
    reflexivity.
Qed.

(** X2. An upload is required and has to be a file: when the [image] field
    is absent, or is a text field, all four routes answer 422 and call
    nothing; so do [/inpaint] and [/edit] when the [mask] field is absent
    or a text field; and [/generate_bg] and [/inpaint] when the [prompt]
    form field is a file. *)
Theorem mock_upload_required (r : Main.Request) :
  ((Main.form r !! "image" = None
    \/ exists v, Main.form r !! "image" = Some (Main.TextPart v)) ->
   Main.post_generate_bg r = (validation_error, [])
   /\ Main.post_inpaint r = (validation_error, [])
   /\ Main.post_edit r = (validation_error, [])
   /\ Main.post_expand r = (validation_error, []))
  /\ ((Main.form r !! "mask" = None
       \/ exists v, Main.form r !! "mask" = Some (Main.TextPart v)) ->
      Main.post_inpaint r = (validation_error, [])
      /\ Main.post_edit r = (validation_error, []))
  /\ ((exists b, Main.form r !! "prompt" = Some (Main.FilePart b)) ->
      Main.post_generate_bg r = (validation_error, [])
      /\ Main.post_inpaint r = (validation_error, [])).
Proof.
  split; [|split].
  - intros Hi. apply upload_file_not_file in Hi.
    unfold Main.post_generate_bg, Main.post_inpaint, Main.post_edit,
      Main.post_expand. rewrite Hi. repeat split; reflexivity.
  - intros Hm. apply upload_file_not_file in Hm.
    unfold Main.post_inpaint, Main.post_edit. rewrite Hm.
    split; destruct (Main.upload_file "image" r); reflexivity.
  - intros [b Hb].
    unfold Main.post_generate_bg, Main.post_inpaint, Main.form_str. rewrite Hb.
    split; destruct (Main.upload_file "image" r);
      try destruct (Main.upload_file "mask" r); reflexivity.
Qed.

Lemma mock_upload_required_witness :
  let no_image : Main.Request :=
    {| Main.form := {[ "prompt" := Main.TextPart "sky" ]};
       Main.query := {[ "prompt" := "sky" ]} |} in
  let text_mask : Main.Request :=
    {| Main.form := <[ "mask" := Main.TextPart "m" ]>
                      {[ "image" := Main.FilePart [Byte.x01] ]};
       Main.query := {[ "prompt" := "sky" ]} |} in
  let file_prompt : Main.Request :=
    {| Main.form := <[ "prompt" := Main.FilePart [Byte.x02] ]>
                      {[ "image" := Main.FilePart [Byte.x01] ]};
       Main.query := ∅ |} in
  Main.post_expand no_image = (validation_error, [])
  /\ Main.post_edit text_mask = (validation_error, [])
  /\ Main.post_generate_bg file_prompt = (validation_error, []).
Proof.
  intros no_image text_mask file_prompt. split; [|split].
  - destruct (mock_upload_required no_image) as (Hi & _).
    apply Hi. left. vm_compute. reflexivity.
  - destruct (mock_upload_required text_mask) as (_ & Hm & _).
    apply Hm. right. exists "m". vm_compute. reflexivity.
  - destruct (mock_upload_required file_prompt) as (_ & _ & Hp).
    apply Hp. exists [Byte.x02]. vm_compute. reflexivity.
Defined.

(** X3. A route reads its declared parameters and nothing else: two
    requests that agree on them get the same answer and make the same
    call.  [/generate_bg] reads the form fields [image] and [prompt],
    [/inpaint] also [mask], and neither reads the query string; [/edit]
    reads the form fields [image] and [mask] and the query parameter
    [prompt], [/expand] the form field [image] and the query parameter
    [prompt], and neither reads a form field [prompt]. *)
Theorem mock_routes_read_declared_parameters (r r' : Main.Request) :
  Main.form r !! "image" = Main.form r' !! "image" ->
  (Main.form r !! "prompt" = Main.form r' !! "prompt" ->
   Main.post_generate_bg r = Main.post_generate_bg r'
   /\ (Main.form r !! "mask" = Main.form r' !! "mask" ->
       Main.post_inpaint r = Main.post_inpaint r'))
  /\ (Main.query r !! "prompt" = Main.query r' !! "prompt" ->
      Main.post_expand r = Main.post_expand r'
      /\ (Main.form r !! "mask" = Main.form r' !! "mask" ->
          Main.post_edit r = Main.post_edit r')).
Proof.
  intros Hi. split.
  - intros Hp. split; [|intros Hm];
      unfold Main.post_generate_bg, Main.post_inpaint, Main.upload_file,
        Main.form_str; rewrite Hi, Hp; try rewrite Hm; reflexivity.
  - intros Hq. split; [|intros Hm];
      unfold Main.post_expand, Main.post_edit, Main.upload_file, Main.query_str;
      rewrite Hi, Hq; try rewrite Hm; reflexivity.
Qed.

Lemma mock_routes_read_declared_parameters_witness :
  let image := [Byte.x01] in
  let mask := [Byte.x02] in
  let form_only : Main.Request :=
    {| Main.form := Main.form (Main.full_request image (Some mask) "sky");
       Main.query := ∅ |} in
  let query_only : Main.Request :=
    {| Main.form := Main.form (Main.uploads_only image (Some mask));
       Main.query := {[ "prompt" := "sky" ]} |} in
  Main.post_inpaint form_only
    = Main.post_inpaint (Main.full_request image (Some mask) "sky")
  /\ Main.post_edit query_only
     = Main.post_edit (Main.full_request image (Some mask) "sky")
  /\ Main.post_edit form_only = (validation_error, [])
  /\ Main.post_inpaint query_only
     = (png_stream image, [Main.CallTurboInpaint image mask ""]).
Proof.
  intros image mask form_only query_only.
  split; [|split; [|split; vm_compute; reflexivity]].
  - destruct (mock_routes_read_declared_parameters form_only
                (Main.full_request image (Some mask) "sky")) as [Hform _];
      [reflexivity|].
    destruct Hform as [_ Hin]; [reflexivity|]. apply Hin. reflexivity.
  - destruct (mock_routes_read_declared_parameters query_only
                (Main.full_request image (Some mask) "sky")) as [_ Hquery];
      [vm_compute; reflexivity|].
    destruct Hquery as [_ Hed]; [vm_compute; reflexivity|].
    apply Hed. vm_compute. reflexivity.
Defined.

End MockRouterOutcomes.

(** ** The chunks of the streamed buffer *)

Section Chunks.
Import SimpleBackend.

Lemma bytesio_iter_other (x : Byte.byte) (rest : bytes) :
  x <> Byte.x0a ->
  bytesio_iter (x :: rest)
    = match bytesio_iter rest with
      | [] => [[x]]
      | line :: lines => (x :: line) :: lines
      end.
Proof. intros Hx. destruct x; try reflexivity. contradiction. Qed.

Lemma bytesio_iter_empty (data : bytes) : bytesio_iter data = [] -> data = [].
Proof.
  destruct data as [|x rest]; [reflexivity|].
  destruct (Byte.byte_eq_dec x Byte.x0a) as [->|Hx].
  - discriminate.
  - rewrite (bytesio_iter_other x rest Hx).
    destruct (bytesio_iter rest); discriminate.
Qed.

Lemma bytesio_iter_chunks_nonempty (data : bytes) :
  Forall (fun chunk => chunk <> []) (bytesio_iter data).
Proof.
  induction data as [|x rest IH]; [constructor|].
  destruct (Byte.byte_eq_dec x Byte.x0a) as [->|Hx].
  - simpl. constructor; [discriminate | exact IH].
  - rewrite (bytesio_iter_other x rest Hx).
    destruct (bytesio_iter rest) as [|line lines].
    + constructor; [discriminate | constructor].
    + apply Forall_cons in IH as [_ IH]. constructor; [discriminate | exact IH].
Qed.

Lemma bytesio_iter_newline_last (data chunk : bytes) (i : nat) :
  chunk ∈ bytesio_iter data -> chunk !! i = Some Byte.x0a -> S i = length chunk.
Proof.
  revert chunk i. induction data as [|x rest IH]; intros chunk i Hin Hi.
  - now apply elem_of_nil in Hin.
  - destruct (Byte.byte_eq_dec x Byte.x0a) as [->|Hx].
    + simpl in Hin. apply elem_of_cons in Hin as [->|Hin].
      * destruct i as [|i]; [reflexivity | discriminate Hi].
      * now apply IH.
    + rewrite (bytesio_iter_other x rest Hx) in Hin.
      destruct (bytesio_iter rest) as [|line lines].
      * apply list_elem_of_singleton in Hin as ->.
        destruct i as [|i]; simpl in Hi; [congruence | discriminate Hi].
      * apply elem_of_cons in Hin as [->|Hin].
        -- destruct i as [|i]; simpl in Hi; [congruence|].
           simpl. f_equal. apply IH; [apply list_elem_of_here | exact Hi].
        -- apply IH; [now apply list_elem_of_further | exact Hi].
Qed.

Lemma bytesio_iter_split (a b : bytes) :
  bytesio_iter (a ++ Byte.x0a :: b) = bytesio_iter (a ++ [Byte.x0a]) ++ bytesio_iter b.
Proof.
  induction a as [|x a IH]; [reflexivity|].
  destruct (Byte.byte_eq_dec x Byte.x0a) as [->|Hx].
  - simpl. rewrite IH. reflexivity.
  - rewrite <- !app_comm_cons, !(bytesio_iter_other x _ Hx), IH.
    destruct (bytesio_iter (a ++ [Byte.x0a])) as [|line lines] eqn:Hl.
    + apply bytesio_iter_empty in Hl. now destruct a.
    + reflexivity.
Qed.

Lemma bytesio_iter_one_line (line : bytes) :
  Byte.x0a ∉ line ->
  bytesio_iter (line ++ [Byte.x0a]) = [line ++ [Byte.x0a]]
  /\ (line <> [] -> bytesio_iter line = [line]).
Proof.
  induction line as [|x line IH]; intros Hno.
  - split; [reflexivity | congruence].
  - apply not_elem_of_cons in Hno as [Hx Hno]. destruct (IH Hno) as [IHn IHl].
    assert (Hx' : x <> Byte.x0a) by congruence.
    split.
    + rewrite <- app_comm_cons, (bytesio_iter_other x _ Hx'), IHn. reflexivity.
    + intros _. rewrite (bytesio_iter_other x _ Hx').
      destruct line as [|y line]; [reflexivity|].
      rewrite IHl by discriminate. reflexivity.
Qed.

(** X4. The body of a generated picture is streamed line by line.  The
    chunks are never empty, put together they are the PNG data, and a
    newline byte occurs in a chunk only as its last byte.  The chunks of
    data cut after a newline are the chunks of the two parts; data without
    a newline is one chunk, and so is data whose only newline is its last
    byte. *)
Theorem bytesio_iter_lines (data : bytes) :
  stream_body (bytesio_iter data) = data
  /\ Forall (fun chunk => chunk <> []) (bytesio_iter data)
  /\ (forall chunk i,
        chunk ∈ bytesio_iter data -> chunk !! i = Some Byte.x0a ->
        S i = length chunk)
  /\ (forall a b,
        data = a ++ Byte.x0a :: b ->
        bytesio_iter data = bytesio_iter (a ++ [Byte.x0a]) ++ bytesio_iter b)
  /\ (Byte.x0a ∉ data ->
      bytesio_iter (data ++ [Byte.x0a]) = [data ++ [Byte.x0a]]
      /\ (data <> [] -> bytesio_iter data = [data])).
Proof.
  split; [apply bytesio_iter_concat|].
  split; [apply bytesio_iter_chunks_nonempty|].
  split; [intros chunk i; apply bytesio_iter_newline_last|].
  split; [intros a b ->; apply bytesio_iter_split|].
  apply bytesio_iter_one_line.
Qed.

Lemma bytesio_iter_lines_witness :
  bytesio_iter [Byte.x89; Byte.x50; Byte.x0a; Byte.x1a; Byte.x0a; Byte.x00]
    = bytesio_iter [Byte.x89; Byte.x50; Byte.x0a]
      ++ bytesio_iter [Byte.x1a; Byte.x0a; Byte.x00]
  /\ bytesio_iter [Byte.x89; Byte.x50; Byte.x0a] = [[Byte.x89; Byte.x50; Byte.x0a]]
  /\ bytesio_iter [Byte.x89; Byte.x50] = [[Byte.x89; Byte.x50]].
Proof.
  split; [|split].
  - destruct (bytesio_iter_lines
                [Byte.x89; Byte.x50; Byte.x0a; Byte.x1a; Byte.x0a; Byte.x00])
      as (_ & _ & _ & Hsplit & _).
    apply (Hsplit [Byte.x89; Byte.x50] [Byte.x1a; Byte.x0a; Byte.x00]).
    reflexivity.
  - destruct (bytesio_iter_lines [Byte.x89; Byte.x50]) as (_ & _ & _ & _ & Hone).
    apply Hone. intros Hin.
    repeat (apply elem_of_cons in Hin as [Hin|Hin]; [discriminate Hin|]).
    now apply elem_of_nil in Hin.
  - destruct (bytesio_iter_lines [Byte.x89; Byte.x50]) as (_ & _ & _ & _ & Hone).
    apply Hone; [|discriminate]. intros Hin.
    repeat (apply elem_of_cons in Hin as [Hin|Hin]; [discriminate Hin|]).
    now apply elem_of_nil in Hin.
Defined.

End Chunks.

(** ** The startup hook: outcomes and final states *)

Section Startup.
Import SimpleBackend.
Context `{Foreign} `{Validators}.

Ltac exec :=
  unfold load_model, device_of, startup_event, generate_background,
    generate_image, health_check, get_models, try_except, bind, ret, raise,
    read_pipe, write_pipe, logger, foreign, invoke, cuda, first_image in *;
  simpl in *.

(** X5. The startup hook raises no [Exception] and no HTTP error: it
    returns, or lets through an exception of the load that is not an
    [Exception].  It never invokes the pipeline, and it first logs that
    the load begins. *)
Theorem startup_swallows_exceptions (s : State) :
  ((startup_event s).1 = inr tt
   \/ exists e, (startup_event s).1 = inl (Uncaught e) /\ is_Exception e = false)
  /\ invocations (startup_event s).2 = invocations s
  /\ exists records,
       log (startup_event s).2
         = log s ++ (INFO, "Loading Stable Diffusion pipeline...") :: records.
Proof.
  exec.
  destruct (from_pretrained "runwayml/stable-diffusion-v1-5"
              (if cuda_is_available (world s) then float16 else float32) false
              (world s)) as [[e|p] w]; simpl.
  - destruct (is_Exception e) eqn:He; simpl.
    + split; [left; reflexivity|]. split; [reflexivity|].
      eexists. rewrite <- app_assoc. reflexivity.
    + split; [right; exists e; split; [reflexivity | exact He]|].
      split; [reflexivity|]. exists []. reflexivity.
  - destruct (pipeline_to p (if cuda_is_available w then "cuda" else "cpu") w)
      as [[e|p'] w']; simpl.
    + destruct (is_Exception e) eqn:He; simpl.
      * split; [left; reflexivity|]. split; [reflexivity|].
        eexists. rewrite <- app_assoc. reflexivity.
      * split; [right; exists e; split; [reflexivity | exact He]|].
        split; [reflexivity|]. exists []. reflexivity.
    + split; [left; reflexivity|]. split; [reflexivity|].
      eexists. rewrite <- app_assoc. reflexivity.
Qed.

(** X6. The state the startup hook leaves when it returns.  After a load
    and a move that succeed, [pipe] is the moved pipeline and the log has
    gained the start record and a record naming the device, which is
    [cuda] when a GPU is available after the load and [cpu] otherwise.
    When the load, or the move, raises an [Exception], [pipe] is [None]
    and the log has gained the start record and an ERROR record that ends
    with [str(e)].  The world is the one the last foreign call left. *)
Theorem startup_final_state (s : State) :
  (forall p w p' w',
     load_model (world s) = (inr p, w) ->
     pipeline_to p (device_of w) w = (inr p', w') ->
     startup_event s
       = (inr tt,
          {| pipe := Some p'; world := w';
             log := log s ++ [(INFO, "Loading Stable Diffusion pipeline...");
                              (INFO, "Pipeline loaded successfully on " +:+ device_of w)];
             invocations := invocations s |}))
  /\ (forall e w,
        load_model (world s) = (inl e, w) ->
        is_Exception e = true ->
        startup_event s
          = (inr tt,
             {| pipe := None; world := w;
                log := log s ++ [(INFO, "Loading Stable Diffusion pipeline...");
                                 (ERROR, "Failed to load pipeline: " +:+ exc_str e)];
                invocations := invocations s |}))
  /\ (forall p w e w',
        load_model (world s) = (inr p, w) ->
        pipeline_to p (device_of w) w = (inl e, w') ->
        is_Exception e = true ->
        startup_event s
          = (inr tt,
             {| pipe := None; world := w';
                log := log s ++ [(INFO, "Loading Stable Diffusion pipeline...");
                                 (ERROR, "Failed to load pipeline: " +:+ exc_str e)];
                invocations := invocations s |})).
Proof.
  split; [|split].
  - intros p w p' w' Hl Hm. exec. rewrite Hl. simpl. rewrite Hm. simpl.
    rewrite <- app_assoc. reflexivity.
  - intros e w Hl He. exec. rewrite Hl. simpl. rewrite He. simpl.
    rewrite <- app_assoc. reflexivity.
  - intros p w e w' Hl Hm He. exec. rewrite Hl. simpl. rewrite Hm. simpl.
    rewrite He. simpl. rewrite <- app_assoc. reflexivity.
Qed.

(** X7. An exception of the load that is not an [Exception] leaves the
    startup hook uncaught, and nothing is logged about it.  When it comes
    from the load itself, [pipe] keeps the value it had; when it comes
    from the move to the device, [pipe] is left holding the pipeline that
    was loaded and not moved. *)
Theorem startup_interrupted (s : State) :
  (forall e w,
     load_model (world s) = (inl e, w) ->
     is_Exception e = false ->
     startup_event s
       = (inl (Uncaught e),
          {| pipe := pipe s; world := w;
             log := log s ++ [(INFO, "Loading Stable Diffusion pipeline...")];
             invocations := invocations s |}))
  /\ (forall p w e w',
        load_model (world s) = (inr p, w) ->
        pipeline_to p (device_of w) w = (inl e, w') ->
        is_Exception e = false ->
        startup_event s
          = (inl (Uncaught e),
             {| pipe := Some p; world := w';
                log := log s ++ [(INFO, "Loading Stable Diffusion pipeline...")];
                invocations := invocations s |})).
Proof.
  split.
  - intros e w Hl He. exec. rewrite Hl. simpl. rewrite He. reflexivity.
  - intros p w e w' Hl Hm He. exec. rewrite Hl. simpl. rewrite Hm. simpl.
    rewrite He. reflexivity.
Qed.

End Startup.


(** ** The generation handler: final states and interrupts *)

Section Generation.
Import SimpleBackend.
Context `{Foreign} `{Validators}.

Ltac exec :=
  unfold generate_background, generate_image, health_check, get_models,
    try_except, bind, ret, raise, read_pipe, write_pipe, logger, foreign,
    invoke, cuda, first_image in *;
  simpl in *.

(** X8. What one generation request does to the process when the pipeline
    is loaded.  The prompt is logged, the pipeline is invoked once with the
    five values of the request as they are, and only the first image it
    returns is encoded.  On success the handler returns the encoded bytes
    as an [image/png] stream and logs nothing more.  When the invocation or
    the encoding raises an [Exception], or no image comes back, it raises
    500 and logs one ERROR record that ends with [str(e)].  In each case
    the world is the one the last foreign call left and [pipe] is kept. *)
Theorem generate_image_final_state (request : GenerateRequest) (s : State)
    (p : Pipeline) :
  pipe s = Some p ->
  let kw := kwargs_of request in
  let begun := log s ++ [(INFO, "Generating image with prompt: " +:+ prompt request)] in
  let failed e := begun ++ [(ERROR, "Error generating image: " +:+ exc_str e)] in
  (forall image images w data w',
     pipeline_call p kw (world s) = (inr (image :: images), w) ->
     image_save image "PNG" w = (inr data, w') ->
     generate_image request s
       = (inr {| body_iterator := bytesio_iter data;
                 stream_media_type := "image/png" |},
          {| pipe := Some p; world := w'; log := begun;
             invocations := invocations s ++ [kw] |}))
  /\ (forall e w,
        pipeline_call p kw (world s) = (inl e, w) ->
        is_Exception e = true ->
        generate_image request s
          = (inl (HTTPException 500 (exc_str e)),
             {| pipe := Some p; world := w; log := failed e;
                invocations := invocations s ++ [kw] |}))
  /\ (forall image images w e w',
        pipeline_call p kw (world s) = (inr (image :: images), w) ->
        image_save image "PNG" w = (inl e, w') ->
        is_Exception e = true ->
        generate_image request s
          = (inl (HTTPException 500 (exc_str e)),
             {| pipe := Some p; world := w'; log := failed e;
                invocations := invocations s ++ [kw] |}))
  /\ (forall w,
        pipeline_call p kw (world s) = (inr [], w) ->
        generate_image request s
          = (inl (HTTPException 500 "list index out of range"),
             {| pipe := Some p; world := w;
                log := failed {| is_Exception := true;
                                 exc_str := "list index out of range" |};
                invocations := invocations s ++ [kw] |})).
Proof.
  intros Hp kw begun failed. subst kw begun failed.
  destruct s as [ps ws ls ks]. simpl in Hp. subst ps.
  split; [|split; [|split]].
  - intros image images w data w' Hc Hs. exec. rewrite Hc. simpl. rewrite Hs.
    reflexivity.
  - intros e w Hc He. exec. rewrite Hc. simpl. rewrite He. reflexivity.
  - intros image images w e w' Hc Hs He. exec. rewrite Hc. simpl. rewrite Hs.
    simpl. rewrite He. reflexivity.
  - intros w Hc. exec. rewrite Hc. reflexivity.
Qed.

(** X9. An exception of the pipeline invocation or of the encoding that is
    not an [Exception] is not turned into an HTTP error: it leaves the
    handler as it is, no ERROR record is logged, and the route produces no
    response.  The invocation has been made all the same. *)
Theorem generation_interrupted (request : GenerateRequest) (s : State)
    (p : Pipeline) :
  pipe s = Some p ->
  let kw := kwargs_of request in
  let begun := log s ++ [(INFO, "Generating image with prompt: " +:+ prompt request)] in
  (forall e w,
     pipeline_call p kw (world s) = (inl e, w) ->
     is_Exception e = false ->
     generate_image request s
       = (inl (Uncaught e),
          {| pipe := Some p; world := w; log := begun;
             invocations := invocations s ++ [kw] |})
     /\ forall body,
          validate body = Some request ->
          (serve (PostTxt2img body) s).1 = inl e
          /\ (serve (PostGenerateBg body) s).1 = inl e)
  /\ (forall image images w e w',
        pipeline_call p kw (world s) = (inr (image :: images), w) ->
        image_save image "PNG" w = (inl e, w') ->
        is_Exception e = false ->
        generate_image request s
          = (inl (Uncaught e),
             {| pipe := Some p; world := w'; log := begun;
                invocations := invocations s ++ [kw] |})
        /\ forall body,
             validate body = Some request ->
             (serve (PostTxt2img body) s).1 = inl e
             /\ (serve (PostGenerateBg body) s).1 = inl e).
Proof.
  intros Hp kw begun. subst kw begun.
  destruct s as [ps ws ls ks]. simpl in Hp. subst ps.
  assert (Hroute : forall e s' body,
             generate_image request {| pipe := Some p; world := ws; log := ls;
                                       invocations := ks |} = (inl (Uncaught e), s') ->
             validate body = Some request ->
             (serve (PostTxt2img body) {| pipe := Some p; world := ws; log := ls;
                                          invocations := ks |}).1 = inl e
             /\ (serve (PostGenerateBg body) {| pipe := Some p; world := ws; log := ls;
                                               invocations := ks |}).1 = inl e).
  { intros e s' body Hg Hv. unfold serve, with_body, respond, generate_background.
    rewrite Hv, Hg. split; reflexivity. }
  split.
  - intros e w Hc He.
    assert (Hg : generate_image request {| pipe := Some p; world := ws; log := ls;
                                           invocations := ks |}
                 = (inl (Uncaught e),
                    {| pipe := Some p; world := w;
                       log := ls ++ [(INFO, "Generating image with prompt: "
                                            +:+ prompt request)];
                       invocations := ks ++ [kwargs_of request] |})).
    { exec. rewrite Hc. simpl. rewrite He. reflexivity. }
    split; [exact Hg|]. intros body Hv. now apply (Hroute e _ body Hg).
  - intros image images w e w' Hc Hs He.
    assert (Hg : generate_image request {| pipe := Some p; world := ws; log := ls;
                                           invocations := ks |}
                 = (inl (Uncaught e),
                    {| pipe := Some p; world := w';
                       log := ls ++ [(INFO, "Generating image with prompt: "
                                            +:+ prompt request)];
                       invocations := ks ++ [kwargs_of request] |})).
    { exec. rewrite Hc. simpl. rewrite Hs. simpl. rewrite He. reflexivity. }
    split; [exact Hg|]. intros body Hv. now apply (Hroute e _ body Hg).
Qed.

End Generation.

(** ** Answers and traffic *)

Section Service.
Import SimpleBackend.
Context `{Foreign} `{Validators}.

Ltac exec :=
  unfold generate_background, generate_image, health_check, get_models,
    try_except, bind, ret, raise, read_pipe, write_pipe, logger, foreign,
    invoke, cuda, first_image in *;
  simpl in *.

(** The cases of a loaded generation request, for the proofs below. *)
Ltac outcomes p kw s :=
  destruct (pipeline_call p kw (world s)) as [[?e|[|?image ?images]] ?w]; simpl;
  [ destruct (is_Exception e); simpl
  | idtac
  | destruct (image_save image "PNG" w) as [[?e|?data] ?w]; simpl;
    [ destruct (is_Exception e); simpl | idtac ] ].

Lemma generate_image_invocations (request : GenerateRequest) (s : State) :
  invocations (generate_image request s).2
    = invocations s ++ (if pipe s is Some _ then [kwargs_of request] else []).
Proof.
  exec. destruct (pipe s) as [p|]; simpl; [|now rewrite app_nil_r].
  outcomes p (kwargs_of request) s; reflexivity.
Qed.

Lemma respond_state {A} (render : A -> Content) (m : M Exc A) (s : State) :
  (respond render m s).2 = (m s).2.
Proof. unfold respond. destruct (m s) as [[[code detail|e]|a] s']; reflexivity. Qed.

Lemma serve_invocations (r : Request) (s : State) :
  invocations (serve r s).2
    = invocations s ++ (if pipe s is Some _ then option_list (asked r) else []).
Proof.
  assert (Hnone : invocations s = invocations s ++ (if pipe s is Some _ then [] else []))
    by (destruct (pipe s); now rewrite app_nil_r).
  destruct r as [| |body|body]; unfold serve, with_body, asked; try exact Hnone;
    destruct (validate body) as [request|]; simpl; try exact Hnone;
    rewrite respond_state; apply generate_image_invocations.
Qed.

(** X10. The pipeline is invoked exactly once for each POST to
    [/sdapi/v1/txt2img] or [/generate_bg] whose body binds, in the order the
    requests arrive and with the values of the body, whether the
    generation then succeeds or not; nothing else invokes it.  With [pipe]
    unset no request invokes anything. *)
Theorem invocations_follow_requests (rs : list Request) (s : State) :
  invocations (serve_all rs s)
    = invocations s ++ (if pipe s is Some _ then omap asked rs else []).
Proof.
  revert s. induction rs as [|r rs IH]; intros s; simpl.
  - destruct (pipe s); now rewrite app_nil_r.
  - rewrite IH, serve_pipe, serve_invocations.
    destruct (pipe s) as [p|]; [|now rewrite !app_nil_r].
    rewrite <- app_assoc. destruct (asked r); reflexivity.
Qed.

Lemma generate_image_log (request : GenerateRequest) (s : State) :
  (pipe s = None /\ log (generate_image request s).2 = log s)
  \/ (pipe s <> None
      /\ exists errors,
          log (generate_image request s).2
            = log s ++ (INFO, "Generating image with prompt: " +:+ prompt request)
                       :: errors
          /\ Forall (fun record => record.1 = ERROR) errors).
Proof.
  exec. destruct (pipe s) as [p|]; simpl; [right | left; split; reflexivity].
  split; [discriminate|].
  outcomes p (kwargs_of request) s;
    first [ exists []; split; [reflexivity | constructor]
          | eexists [_]; split;
            [rewrite <- app_assoc; reflexivity | repeat constructor] ].
Qed.

Lemma serve_log (r : Request) (s : State) :
  ((pipe s = None \/ asked r = None) /\ log (serve r s).2 = log s)
  \/ (exists kw errors,
        asked r = Some kw
        /\ log (serve r s).2
           = log s ++ (INFO, "Generating image with prompt: " +:+ kw_prompt kw)
                      :: errors
        /\ Forall (fun record => record.1 = ERROR) errors).
Proof.
  assert (Hlog : forall request,
             ((pipe s = None \/ Some (kwargs_of request) = None)
              /\ log (generate_image request s).2 = log s)
             \/ (exists kw errors,
                   Some (kwargs_of request) = Some kw
                   /\ log (generate_image request s).2
                      = log s ++ (INFO, "Generating image with prompt: "
                                        +:+ kw_prompt kw) :: errors
                   /\ Forall (fun record => record.1 = ERROR) errors)).
  { intros request.
    destruct (generate_image_log request s) as [[Hp Hl]|[_ (errors & Hl & He)]].
    - left. split; [left; exact Hp | exact Hl].
    - right. exists (kwargs_of request), errors. split; [reflexivity|].
      split; [exact Hl | exact He]. }
  destruct r as [| |body|body]; unfold serve, with_body, asked;
    try (left; split; [right; reflexivity | reflexivity]);
    destruct (validate body) as [request|]; simpl;
    try (left; split; [right; reflexivity | reflexivity]);
    rewrite respond_state; apply Hlog.
Qed.

(** X11. The log only grows, and it records every prompt that reaches the
    pipeline.  A GET, a POST whose body does not bind, and any request
    while [pipe] is unset log nothing.  A POST whose body binds, with
    [pipe] set, appends one INFO record that ends with the prompt as it was
    sent, followed by ERROR records only.  Along any sequence of requests
    the log at the start is a prefix of the log at the end. *)
Theorem log_is_append_only (rs : list Request) (s : State) :
  log s `prefix_of` log (serve_all rs s)
  /\ (forall r,
        ((pipe s = None \/ asked r = None) /\ log (serve r s).2 = log s)
        \/ (exists kw errors,
              asked r = Some kw
              /\ log (serve r s).2
                 = log s ++ (INFO, "Generating image with prompt: " +:+ kw_prompt kw)
                            :: errors
              /\ Forall (fun record => record.1 = ERROR) errors)).
Proof.
  split; [|intros r; apply serve_log].
  revert s. induction rs as [|r rs IH]; intros s; simpl; [reflexivity|].
  etrans; [|apply IH].
  destruct (serve_log r s) as [[_ ->]|(kw & errors & _ & -> & _)];
    [reflexivity | now apply prefix_app_r].
Qed.

(** X12. Every answer of the service has one of four status codes.  The
    two GET routes answer 200.  A POST route answers 422 exactly when its
    body does not bind; otherwise 503 with the detail [Pipeline not loaded]
    exactly when [pipe] is unset, and with [pipe] set either 500 with a
    detail or 200 with an [image/png] stream. *)
Theorem backend_answers (r : Request) (s : State) (resp : HttpResponse) :
  (serve r s).1 = inr resp ->
  match r with
  | GetHealth => exists h, resp = {| status_code := 200; content := HealthJson h |}
  | GetSdModels =>
      resp = {| status_code := 200;
                content := ModelsJson [{| title := "stable-diffusion-v1-5";
                                          model_name := "stable-diffusion-v1-5" |}] |}
  | PostTxt2img body | PostGenerateBg body =>
      (validate body = None /\ resp = validation_error)
      \/ (validate body <> None
          /\ ((pipe s = None
               /\ resp = {| status_code := 503;
                            content := DetailJson "Pipeline not loaded" |})
              \/ (pipe s <> None
                  /\ ((exists detail,
                         resp = {| status_code := 500; content := DetailJson detail |})
                      \/ (exists chunks,
                            resp = {| status_code := 200;
                                      content := Stream chunks "image/png" |})))))
  end.
Proof.
  assert (Hpost : forall body,
             (with_body generate_image body s).1 = inr resp ->
             (validate body = None /\ resp = validation_error)
             \/ (validate body <> None
                 /\ ((pipe s = None
                      /\ resp = {| status_code := 503;
                                   content := DetailJson "Pipeline not loaded" |})
                     \/ (pipe s <> None
                         /\ ((exists detail,
                                resp = {| status_code := 500;
                                          content := DetailJson detail |})
                             \/ (exists chunks,
                                   resp = {| status_code := 200;
                                             content := Stream chunks "image/png" |})))))).
  { intros body. unfold with_body, respond.
    destruct (validate body) as [request|]; simpl.
    - intros Hr. right. split; [discriminate|]. revert Hr. exec.
      destruct (pipe s) as [p|]; simpl.
      + intros Hr. right. split; [discriminate|].
        revert Hr. outcomes p (kwargs_of request) s; intros [= <-]; eauto.
      + intros [= <-]. left. split; reflexivity.
    - intros [= <-]. left. split; reflexivity. }
  destruct r as [| |body|body]; unfold serve.
  - unfold respond. exec. intros [= <-]. eauto.
  - unfold respond. exec. intros [= <-]. reflexivity.
  - apply Hpost.
  - apply Hpost.
Qed.

Lemma unloaded_serve (r : Request) (s : State) :
  pipe s = None ->
  serve r s
    = (inr match r with
           | GetHealth =>
               {| status_code := 200;
                  content := HealthJson {| status := "unhealthy"; models := [] |} |}
           | GetSdModels =>
               {| status_code := 200;
                  content := ModelsJson [{| title := "stable-diffusion-v1-5";
                                            model_name := "stable-diffusion-v1-5" |}] |}
           | PostTxt2img body | PostGenerateBg body =>
               if validate body is Some _
               then {| status_code := 503; content := DetailJson "Pipeline not loaded" |}
               else validation_error
           end, s).
Proof.
  intros Hp. destruct r as [| |body|body]; unfold serve, with_body, respond.
  - exec. rewrite Hp. reflexivity.
  - reflexivity.
  - destruct (validate body) as [request|]; [|reflexivity].
    rewrite (generate_image_unloaded request s Hp). reflexivity.
  - destruct (validate body) as [request|]; [|reflexivity].
    unfold generate_background.
    rewrite (generate_image_unloaded request s Hp). reflexivity.
Qed.

(** X13. Once [pipe] is unset the service stays as it is: no sequence of
    requests changes the state, so nothing is loaded later and nothing is
    retried.  Every request is answered: [/health] with [unhealthy] and no
    model, [/sdapi/v1/sd-models] still with the one model, and a POST with
    422 when its body does not bind and 503 otherwise. *)
Theorem unloaded_service_is_inert (rs : list Request) (s : State) :
  pipe s = None ->
  serve_all rs s = s
  /\ answers rs s
     = map (fun r =>
              inr match r with
                  | GetHealth =>
                      {| status_code := 200;
                         content := HealthJson {| status := "unhealthy";
                                                  models := [] |} |}
                  | GetSdModels =>
                      {| status_code := 200;
                         content := ModelsJson
                                      [{| title := "stable-diffusion-v1-5";
                                          model_name := "stable-diffusion-v1-5" |}] |}
                  | PostTxt2img body | PostGenerateBg body =>
                      if validate body is Some _
                      then {| status_code := 503;
                              content := DetailJson "Pipeline not loaded" |}
                      else validation_error
                  end) rs.
Proof.
  intros Hp. induction rs as [|r rs [IHs IHa]]; [split; reflexivity|].
  simpl. rewrite (unloaded_serve r s Hp). simpl. split; [exact IHs|].
  f_equal. exact IHa.
Qed.

(** X14. Binding a body reads the five declared fields and nothing else:
    two JSON objects that agree on [prompt], [width], [height],
    [num_inference_steps] and [guidance_scale] bind to the same request or
    are both refused, so a key of any other name changes nothing. *)
Theorem validate_reads_declared_fields (d d' : gmap string json) :
  ((forall name,
      name ∈ ["prompt"; "width"; "height"; "num_inference_steps"; "guidance_scale"] ->
      d !! name = d' !! name) ->
   validate (Some (JDict d)) = validate (Some (JDict d')))
  /\ (forall name j,
        name ∉ ["prompt"; "width"; "height"; "num_inference_steps"; "guidance_scale"] ->
        validate (Some (JDict (<[name := j]> d))) = validate (Some (JDict d))).
Proof.
  assert (Hagree : forall d1 d2 : gmap string json,
             (forall name,
                name ∈ ["prompt"; "width"; "height"; "num_inference_steps";
                        "guidance_scale"] ->
                d1 !! name = d2 !! name) ->
             validate (Some (JDict d1)) = validate (Some (JDict d2))).
  { intros d1 d2 Hsame. unfold validate, field.
    rewrite !Hsame; [reflexivity|..]; set_solver. }
  split; [apply Hagree|].
  intros name j Hname. apply Hagree. intros k Hk.
  apply lookup_insert_ne. intros ->. contradiction.
Qed.

End Service.

(** ** The further properties on the small instance *)

Section MoreOnToy.
Import SimpleBackend Toy.

Lemma startup_final_state_witness :
  startup_event (boot (H := libraries) ready)
    = (inr tt,
       {| pipe := Some {| device := "cpu" |}; SimpleBackend.world := ready;
          log := [(INFO, "Loading Stable Diffusion pipeline...");
                  (INFO, "Pipeline loaded successfully on cpu")];
          invocations := [] |})
  /\ startup_event (boot (H := libraries) offline)
     = (inr tt,
        {| pipe := None; SimpleBackend.world := offline;
           log := [(INFO, "Loading Stable Diffusion pipeline...");
                   (ERROR, "Failed to load pipeline: cannot load the model")];
           invocations := [] |}).
Proof.
  split.
  - destruct (startup_final_state (boot (H := libraries) ready)) as (Hok & _).
    apply (Hok {| device := "cpu" |} ready {| device := "cpu" |} ready);
      vm_compute; reflexivity.
  - destruct (startup_final_state (boot (H := libraries) offline)) as (_ & Hfail & _).
    apply (Hfail (OSError "cannot load the model") offline); vm_compute; reflexivity.
Defined.

Lemma generate_image_final_state_witness :
  let request := {| prompt := "a cat"; width := 64; height := 8;
                    num_inference_steps := 1; guidance_scale := 0%float |} in
  let odd := {| prompt := "a cat"; width := 100; height := 512;
                num_inference_steps := 20; guidance_scale := 7.5%float |} in
  (generate_image request (started ready)).1
    = inr {| body_iterator := bytesio_iter (encode (64, 8));
             stream_media_type := "image/png" |}
  /\ log (generate_image odd (started ready)).2
     = log (started ready)
       ++ [(INFO, "Generating image with prompt: a cat");
           (ERROR, "Error generating image: height and width have to be divisible by 8")].
Proof.
  intros request odd. split.
  - destruct (generate_image_final_state request (started ready) {| device := "cpu" |})
      as (Hok & _); [vm_compute; reflexivity|].
    rewrite (Hok (64, 8) [] {| weights_cached := true; gpu := false; draws := 1 |}
               (encode (64, 8))
               {| weights_cached := true; gpu := false; draws := 1 |});
      vm_compute; reflexivity.
  - destruct (generate_image_final_state odd (started ready) {| device := "cpu" |})
      as (_ & Hraise & _); [vm_compute; reflexivity|].
    rewrite (Hraise (ValueError "height and width have to be divisible by 8") ready);
      vm_compute; reflexivity.
Defined.

Lemma backend_answers_witness :
  let body := Some prompt_only in
  let resp := {| status_code := 200;
                 content := Stream (bytesio_iter (encode (512, 512))) "image/png" |} in
  (validate body = None /\ resp = validation_error)
  \/ (validate body <> None
      /\ ((pipe (started ready) = None
           /\ resp = {| status_code := 503;
                        content := DetailJson "Pipeline not loaded" |})
          \/ (pipe (started ready) <> None
              /\ ((exists detail,
                     resp = {| status_code := 500; content := DetailJson detail |})
                  \/ (exists chunks,
                        resp = {| status_code := 200;
                                  content := Stream chunks "image/png" |}))))).
Proof.
  intros body resp.
  apply (backend_answers (PostTxt2img body) (started ready) resp).
  vm_compute. reflexivity.
Defined.

Lemma unloaded_service_is_inert_witness :
  let rs := [PostTxt2img (Some prompt_only); GetHealth; PostGenerateBg None;
             GetSdModels; PostGenerateBg (Some prompt_and_steps)] in
  serve_all rs (started offline) = started offline
  /\ answers rs (started offline)
     = [inr {| status_code := 503; content := DetailJson "Pipeline not loaded" |};
        inr {| status_code := 200;
               content := HealthJson {| status := "unhealthy"; models := [] |} |};
        inr validation_error;
        inr {| status_code := 200;
               content := ModelsJson [{| title := "stable-diffusion-v1-5";
                                         model_name := "stable-diffusion-v1-5" |}] |};
        inr {| status_code := 503; content := DetailJson "Pipeline not loaded" |}].
Proof.
  intros rs.
  destruct (unloaded_service_is_inert rs (started offline)) as [Hs Ha];
    [vm_compute; reflexivity|].
  split; [exact Hs|]. rewrite Ha. vm_compute. reflexivity.
Defined.

Lemma validate_reads_declared_fields_witness :
  validate (Some (JDict (<[ "seed" := JInt 7 ]> {[ "prompt" := JStr "a cat" ]})))
    = validate (Some prompt_only)
  /\ validate (Some (JDict (<[ "negative_prompt" := JStr "dog" ]>
                             {[ "prompt" := JStr "a cat" ]})))
     = validate (Some prompt_only).
Proof.
  split.
  - destruct (validate_reads_declared_fields
                (<[ "seed" := JInt 7 ]> {[ "prompt" := JStr "a cat" ]})
                {[ "prompt" := JStr "a cat" ]}) as [Hagree _].
    apply Hagree. intros name Hname.
    repeat (apply elem_of_cons in Hname as [->|Hname]; [vm_compute; reflexivity|]).
    now apply elem_of_nil in Hname.
  - destruct (validate_reads_declared_fields {[ "prompt" := JStr "a cat" ]}
                {[ "prompt" := JStr "a cat" ]}) as [_ Hextra].
    apply (Hextra "negative_prompt" (JStr "dog")). intros Hname.
    repeat (apply elem_of_cons in Hname as [Hname|Hname]; [discriminate Hname|]).
    now apply elem_of_nil in Hname.
Defined.

End MoreOnToy.

Section OnInterrupted.
Import SimpleBackend Interrupted.

Lemma startup_interrupted_witness :
  (startup_event (boot (H := libraries) (AtLoad, Toy.ready))).1
    = inl (Uncaught Toy.KeyboardInterrupt)
  /\ pipe (startup_event (boot (H := libraries) (AtLoad, Toy.ready))).2 = None
  /\ (startup_event (boot (H := libraries) (AtMove, Toy.ready))).1
     = inl (Uncaught Toy.KeyboardInterrupt)
  /\ pipe (startup_event (boot (H := libraries) (AtMove, Toy.ready))).2
     = Some {| Toy.device := "cpu" |}.
Proof.
  destruct (startup_interrupted (boot (H := libraries) (AtLoad, Toy.ready)))
    as [Hload _].
  destruct (startup_interrupted (boot (H := libraries) (AtMove, Toy.ready)))
    as [_ Hmove].
  rewrite (Hload Toy.KeyboardInterrupt (AtLoad, Toy.ready))
    by (vm_compute; reflexivity).
  rewrite (Hmove {| Toy.device := "cpu" |} (AtMove, Toy.ready) Toy.KeyboardInterrupt
             (AtMove, Toy.ready)) by (vm_compute; reflexivity).
  repeat split.
Defined.

Lemma generation_interrupted_witness :
  let request := {| prompt := "a cat"; width := 512; height := 512;
                    num_inference_steps := 20; guidance_scale := 7.5%float |} in
  let at_call := (startup_event (boot (H := libraries) (AtCall, Toy.ready))).2 in
  let at_save := (startup_event (boot (H := libraries) (AtSave, Toy.ready))).2 in
  (serve (PostTxt2img (Some Toy.prompt_only)) at_call).1 = inl Toy.KeyboardInterrupt
  /\ (generate_image request at_save).1 = inl (Uncaught Toy.KeyboardInterrupt)
  /\ invocations (generate_image request at_save).2 = [kwargs_of request].
Proof.
  intros request at_call at_save.
  destruct (generation_interrupted request at_call {| Toy.device := "cpu" |})
    as [Hcall _]; [vm_compute; reflexivity|].
  destruct (generation_interrupted request at_save {| Toy.device := "cpu" |})
    as [_ Hsave]; [vm_compute; reflexivity|].
  destruct (Hcall Toy.KeyboardInterrupt (AtCall, Toy.ready)) as [_ Hroute];
    [vm_compute; reflexivity | reflexivity |].
  destruct (Hsave (512, 512) []
              (AtSave, {| Toy.weights_cached := true; Toy.gpu := false;
                          Toy.draws := 1 |})
              Toy.KeyboardInterrupt
              (AtSave, {| Toy.weights_cached := true; Toy.gpu := false;
                          Toy.draws := 1 |})) as [Hg _];
    [vm_compute; reflexivity | vm_compute; reflexivity | reflexivity |].
  split; [apply (Hroute (Some Toy.prompt_only)); vm_compute; reflexivity|].
  rewrite Hg. split; reflexivity.
Defined.


End OnInterrupted.
